(** * The matching core of the nutrition advisor ([src/main.py])

    A shallow embedding of the data frame operations the program performs,
    of [load_and_preprocess_data], [categorize_bmi], [find_best_match],
    [display_results] and [main], and the properties of the specification
    proved (or refuted) about them.

    Numbers.  The program computes with binary64 floats.  Every finite
    float is a rational, the BMI thresholds (18.5, 25, 30, 35, 40) and the
    score weights (2, 1.5) are exactly representable and the scores are
    small multiples of 0.5, so comparisons and scores are exact; they are
    modelled on canonical rationals [Qc].  The average of the two middle
    values of a median is taken exactly (no rounding).  A missing value is
    the float NaN, kept as a separate constructor. *)

From Stdlib Require Import Ascii String QArith Qcanon Lia Lqa.
From stdpp Require Import base numbers gmap strings list sorting.

Local Open Scope string_scope.
Local Open Scope Qc_scope.

(** ** Python values, exceptions and results *)

(** A decimal literal of the source, as a canonical rational. *)
Definition qc (q : Q) : Qc := Q2Qc q.

(** [abs] on rationals. *)
Definition Qcabs (x : Qc) : Qc := if decide (0 ≤ x) then x else - x.

(** A float: a rational or NaN. *)
Inductive float : Type :=
  | fnan : float
  | fnum : Qc → float.

(** The content of one field of a data frame row, as [read_csv] produces
    it: a missing value, a number or a text. *)
Inductive cell : Type :=
  | NaN : cell
  | Num : Qc → cell
  | Str : string → cell.

Global Instance float_eq_dec : EqDecision float.
Proof. solve_decision. Defined.
Global Instance cell_eq_dec : EqDecision cell.
Proof. solve_decision. Defined.

Definition is_Str (c : cell) : bool :=
  match c with Str _ => true | _ => false end.
Definition isna (c : cell) : bool :=
  match c with NaN => true | _ => false end.

(** The exceptions the program can meet. *)
Inductive exn : Type :=
  | FileNotFoundError
  | PermissionError
  | ParserError
  | KeyError (key : string)
  | IndexError
  | ValueError
  | TypeError
  | AttributeError.

(** The outcome of a Python call: a value or a raised exception. *)
Inductive result (A : Type) : Type :=
  | Ok : A → result A
  | Raise : exn → result A.
Arguments Ok {A} _.
Arguments Raise {A} _.

Global Instance result_ret : MRet result := λ A, Ok.
Global Instance result_bind : MBind result := λ A B k m,
  match m with
  | Ok a => k a
  | Raise e => Raise e
  end.

(** ** Strings

    The texts of the model are ASCII: [strip] and [upper] act on the ASCII
    blanks and letters, as Python does on such texts. *)

Module Str.

Definition in_range (lo hi : nat) (a : ascii) : bool :=
  (lo <=? nat_of_ascii a)%nat && (nat_of_ascii a <=? hi)%nat.

(** [str.isspace] on the ASCII range: tab, line feed, vertical tab, form
    feed, carriage return, the separators 28 to 31 and the space. *)
Definition isspace (a : ascii) : bool := in_range 9 13 a || in_range 28 32 a.

Definition is_lower (a : ascii) : bool := in_range 97 122 a.
Definition is_upper (a : ascii) : bool := in_range 65 90 a.

Definition upper_char (a : ascii) : ascii :=
  if is_lower a then ascii_of_nat (nat_of_ascii a - 32) else a.
Definition lower_char (a : ascii) : ascii :=
  if is_upper a then ascii_of_nat (nat_of_ascii a + 32) else a.

Fixpoint lstrip (s : string) : string :=
  match s with
  | String a s' => if isspace a then lstrip s' else s
  | EmptyString => EmptyString
  end.

Fixpoint rstrip (s : string) : string :=
  match s with
  | String a s' =>
      match rstrip s' with
      | EmptyString => if isspace a then EmptyString else String a EmptyString
      | r => String a r
      end
  | EmptyString => EmptyString
  end.

(** [s.strip()] *)
Definition strip (s : string) : string := rstrip (lstrip s).

(** [s.upper()], on ASCII letters. *)
Fixpoint upper (s : string) : string :=
  match s with
  | String a s' => String (upper_char a) (upper s')
  | EmptyString => EmptyString
  end.

(** [s.title()]: a letter that follows a letter is lowered, any other
    letter is raised. *)
Fixpoint title_from (after_letter : bool) (s : string) : string :=
  match s with
  | String a s' =>
      let letter := is_lower a || is_upper a in
      String (if after_letter then lower_char a else upper_char a)
             (title_from letter s')
  | EmptyString => EmptyString
  end.
Definition title (s : string) : string := title_from false s.

(** [sub in s] *)
Fixpoint contains (sub s : string) : bool :=
  String.prefix sub s ||
  match s with
  | String _ s' => contains sub s'
  | EmptyString => false
  end.

End Str.

(** ** The data frame operations used by the program *)

Module Pandas.

(** A column. *)
Abbreviation Series := (list cell).

(** A row: the fields by column label. *)
Abbreviation Row := (gmap string cell).

(** A data frame: the column labels in order and the rows in order.  A
    field absent from a row reads as missing. *)
Record DataFrame : Type := mkDataFrame {
  columns : list string;
  rows : list Row
}.

Definition field (col : string) (r : Row) : cell := default NaN (r !! col).

(** The values of a column, for a label known to be one of the frame. *)
Definition column (df : DataFrame) (col : string) : Series :=
  field col <$> rows df.

(** [col in df.columns] *)
Definition has_column (df : DataFrame) (col : string) : bool :=
  bool_decide (col ∈ columns df).

(** [df[col]] *)
Definition getitem (df : DataFrame) (col : string) : result Series :=
  if has_column df col then Ok (column df col) else Raise (KeyError col).

(** [df[col] = s], for a series aligned with the rows: an existing column
    is replaced, a new one is appended. *)
Definition setitem (df : DataFrame) (col : string) (s : Series) : DataFrame :=
  {| columns := if has_column df col then columns df else columns df ++ [col];
     rows := zip_with (λ r v, <[col := v]> r) (rows df) s |}.

(** [pd.api.types.is_numeric_dtype(s)]: [read_csv] gives a column a
    numeric dtype when none of its fields is a text. *)
Definition is_numeric_dtype (s : Series) : bool := forallb (λ c, negb (is_Str c)) s.

(** [pd.api.types.is_string_dtype(s)]: the other columns, of dtype object.
    (pandas 2 asks in addition that no field of the column is missing; no
    property below depends on the text columns that have a missing field.) *)
Definition is_string_dtype (s : Series) : bool := negb (is_numeric_dtype s).

(** The numbers of a column, the missing values skipped. *)
Definition numbers (s : Series) : list Qc :=
  omap (λ c, match c with Num q => Some q | _ => None end) s.

(** The middle of a sorted list: the middle value when the length is odd,
    the mean of the two middle values when it is even. *)
Definition middle (l : list Qc) : cell :=
  let n := length l in
  if Nat.even n then
    match l !! (n / 2 - 1)%nat, l !! (n / 2)%nat with
    | Some a, Some b => Num ((a + b) / qc 2)
    | _, _ => NaN
    end
  else
    match l !! (n / 2)%nat with
    | Some a => Num a
    | None => NaN
    end.

(** [s.median()] of a numeric column: over the values that are not
    missing; NaN when there is none. *)
Definition median (s : Series) : cell := middle (merge_sort Qcle (numbers s)).

(** [s.fillna(v)] *)
Definition fillna (v : cell) (s : Series) : Series :=
  (λ c, if isna c then v else c) <$> s.

(** [s.map(d)] for a dict [d] with text keys and integer values: a field
    that is not a key becomes missing. *)
Definition map_dict (d : gmap string Z) (s : Series) : Series :=
  (λ c, match c with
        | Str k => match d !! k with Some z => Num (Qc_of_Z z) | None => NaN end
        | _ => NaN
        end) <$> s.

(** [s.str.strip()] and [s.str.upper()] on a column of dtype object: a
    field that is not a text becomes missing. *)
Definition str_strip (s : Series) : Series :=
  (λ c, match c with Str t => Str (Str.strip t) | _ => NaN end) <$> s.
Definition str_upper (s : Series) : Series :=
  (λ c, match c with Str t => Str (Str.upper t) | _ => NaN end) <$> s.

(** [s == t], element by element: a field equals a text when it is that
    text. *)
Definition eq_str (s : Series) (t : string) : list bool :=
  (λ c, bool_decide (c = Str t)) <$> s.

(** [m1 & m2] *)
Definition mask_and (m1 m2 : list bool) : list bool := zip_with andb m1 m2.

(** [l[mask]]: the elements at the positions where the mask holds. *)
Fixpoint select {A} (l : list A) (mask : list bool) : list A :=
  match l, mask with
  | a :: l', b :: mask' => if b then a :: select l' mask' else select l' mask'
  | _, _ => []
  end.

(** [df[mask]] *)
Definition getitem_mask (df : DataFrame) (mask : list bool) : DataFrame :=
  {| columns := columns df; rows := select (rows df) mask |}.

(** [df.empty] *)
Definition is_empty (df : DataFrame) : bool :=
  bool_decide (rows df = []) || bool_decide (columns df = []).

(** [df.iloc[i]] *)
Definition iloc (df : DataFrame) (i : nat) : result Row :=
  match rows df !! i with
  | Some r => Ok r
  | None => Raise IndexError
  end.

(** [row[col]] *)
Definition row_getitem (r : Row) (col : string) : result cell :=
  match r !! col with
  | Some c => Ok c
  | None => Raise (KeyError col)
  end.

(** [row.get(col, d)] *)
Definition row_get (r : Row) (col : string) (d : cell) : cell := default d (r !! col).

End Pandas.

(** ** [np.argmin] *)

Module Numpy.

(** [x >= y] on floats: false when one of them is NaN. *)

Definition fge (x y : float) : bool :=
  match x, y with
  | fnum a, fnum b => bool_decide (b ≤ a)
  | _, _ => false
  end.

(** The scan of [np.argmin]: the running minimum [mp], found at [min_ind],
    is replaced by an element that is not greater or equal to it, and the
    scan stops at a NaN. *)
Fixpoint argmin_loop (mp : float) (min_ind i : nat) (l : list float) : nat :=
  match l with
  | [] => min_ind
  | x :: l' =>
      if fge x mp then argmin_loop mp min_ind (S i) l'
      else match x with
           | fnan => i
           | fnum _ => argmin_loop x i (S i) l'
           end
  end.

(** [np.argmin(l)]; an empty sequence is refused. *)
Definition argmin (l : list float) : result nat :=
  match l with
  | [] => Raise ValueError
  | fnan :: _ => Ok 0%nat
  | fnum a :: l' => Ok (argmin_loop (fnum a) 0 1 l')
  end.

End Numpy.

(** ** The program *)

Import Pandas.

(** *** Constants *)

Definition EATING_HABIT_RANKING : gmap string Z :=
  list_to_map [("NEVER", 0%Z); ("RARELY", 1%Z); ("OFTEN", 2%Z); ("DAILY", 3%Z)].

Definition ACTIVITY_RANKING : gmap string Z :=
  list_to_map [("LIGHT ACTIVE", 0%Z); ("MODERATELY ACTIVE", 1%Z);
               ("ACTIVE", 2%Z); ("VERY ACTIVE", 3%Z)].

(** [d.get(k, dflt)] *)
Definition dict_get (d : gmap string Z) (k : string) (dflt : Z) : Z :=
  default dflt (d !! k).

(** *** Data loading and processing *)

Definition NUMERIC_COLUMNS : list string :=
  ["Age"; "Number of meals per day"; "Height in cm"; "Weight"; "BMI"].

(** One turn of the first loop.  The fill is in place on the column taken
    from the frame, and writes through to the frame. *)
Definition impute_median (df : DataFrame) (col : string) : DataFrame :=
  if has_column df col && is_numeric_dtype (column df col)
  then setitem df col (fillna (median (column df col)) (column df col))
  else df.

(** One turn of the second loop. *)
Definition canonicalize (df : DataFrame) (col : string) : DataFrame :=
  if is_string_dtype (column df col)
  then setitem df col (str_upper (str_strip (column df col)))
  else df.

(** [df[dst] = df[src].map(ranking).fillna(0)] *)
Definition add_rank (ranking : gmap string Z) (src dst : string)
    (df : DataFrame) : DataFrame :=
  setitem df dst (fillna (Num (Qc_of_Z 0)) (map_dict ranking (column df src))).

(** One turn of the third loop. *)
Definition add_consumption_rank (df : DataFrame) (col : string) : DataFrame :=
  add_rank EATING_HABIT_RANKING col (col ++ "_Rank") df.

(** The body of the [try] block after the file is read. *)
Definition preprocess (df : DataFrame) : DataFrame :=
  let df1 := foldl impute_median df NUMERIC_COLUMNS in
  let df2 := foldl canonicalize df1 (columns df1) in
  let consumption_cols :=
    List.filter (Str.contains "Consumption Rate") (columns df2) in
  let df3 := foldl add_consumption_rank df2 consumption_cols in
  if has_column df3 "Physical Activity level"
  then add_rank ACTIVITY_RANKING "Physical Activity level" "Activity_Rank" df3
  else df3.

(** [load_and_preprocess_data], given the outcome of [pd.read_csv] on the
    dataset file.  The handler catches [FileNotFoundError] only. *)
Definition load_and_preprocess_data (read_csv : result DataFrame)
    : result (option DataFrame) :=
  match read_csv with
  | Ok df => Ok (Some (preprocess df))
  | Raise FileNotFoundError => Ok None
  | Raise e => Raise e
  end.

(** *** Categorizer *)

Definition categorize_bmi (bmi : Qc) : string :=
  if bool_decide (bmi < qc 18.5) then "UNDERWEIGHT"
  else if bool_decide (qc 18.5 ≤ bmi) && bool_decide (bmi < qc 25) then "NORMAL"
  else if bool_decide (qc 25 ≤ bmi) && bool_decide (bmi < qc 30) then "OVERWEIGHT"
  else if bool_decide (qc 30 ≤ bmi) && bool_decide (bmi < qc 35) then "OBESITY (CLASS 1)"
  else if bool_decide (qc 35 ≤ bmi) && bool_decide (bmi < qc 40) then "OBESITY (CLASS 2)"
  else "SEVERE/MORBID OBESITY".

(** *** Matching *)

(** The dict built by [get_user_input]. *)
Record UserInputs : Type := mkUserInputs {
  bmi : Qc;
  gender : string;
  activity : string;
  rice : string;
  beans : string;
  soft_drinks : string;
  snacks : string;
  fruits : string;
  veg : string
}.

(** [abs(c - k)] for a field [c] and an integer [k]. *)
Definition abs_diff (c : cell) (k : Z) : result float :=
  match c with
  | Num q => Ok (fnum (Qcabs (q - Qc_of_Z k)))
  | NaN => Ok fnan
  | Str _ => Raise TypeError
  end.

Definition fmul (x : float) (w : Qc) : float :=
  match x with
  | fnum a => fnum (a * w)
  | fnan => fnan
  end.

Definition fadd (x y : float) : float :=
  match x, y with
  | fnum a, fnum b => fnum (a + b)
  | _, _ => fnan
  end.

(** [abs(row[col] - ranking.get(answer, 0))] *)
Definition rank_distance (row : Row) (col : string) (user_rank : Z) : result float :=
  c ← row_getitem row col;
  abs_diff c user_rank.

(** The body of the scoring loop. *)
Definition score_row (u : UserInputs) (user_activity_rank : Z) (row : Row)
    : result float :=
  d ← rank_distance row "Activity_Rank" user_activity_rank;
  let score := fmul d (qc 2) in
  d ← rank_distance row "Rice Consumption Rate_Rank"
        (dict_get EATING_HABIT_RANKING (rice u) 0);
  let score := fadd score d in
  d ← rank_distance row "Beans Consumption Rate_Rank"
        (dict_get EATING_HABIT_RANKING (beans u) 0);
  let score := fadd score d in
  d ← rank_distance row "Soft drinks Consumption Rate_Rank"
        (dict_get EATING_HABIT_RANKING (soft_drinks u) 0);
  let score := fadd score (fmul d (qc 1.5)) in
  d ← rank_distance row "Snacks Consumption Rate_Rank"
        (dict_get EATING_HABIT_RANKING (snacks u) 0);
  let score := fadd score (fmul d (qc 1.5)) in
  d ← rank_distance row "Fruits Consumption Rate_Rank"
        (dict_get EATING_HABIT_RANKING (fruits u) 0);
  let score := fadd score d in
  d ← rank_distance row "Vegetables Consumption Rate_Rank"
        (dict_get EATING_HABIT_RANKING (veg u) 0);
  let score := fadd score d in
  Ok score.

(** The candidates: [df[(df['Gender'] == gender) & (df['BMI Category'] == category)]] *)
Definition filter_candidates (df : DataFrame) (gender category : string)
    : result DataFrame :=
  g ← getitem df "Gender";
  c ← getitem df "BMI Category";
  Ok (getitem_mask df (mask_and (eq_str g gender) (eq_str c category))).

(** The end of [find_best_match]: the row at the position [np.argmin] gives. *)
Definition select_best (candidates : DataFrame) (scores : list float)
    : result (option Row) :=
  if bool_decide (scores = []) then Ok None
  else
    best_match_index ← Numpy.argmin scores;
    r ← iloc candidates best_match_index;
    Ok (Some r).

Definition find_best_match (df : DataFrame) (user_inputs : UserInputs)
    : result (option Row) :=
  let user_bmi_category := categorize_bmi (bmi user_inputs) in
  let user_activity_rank := dict_get ACTIVITY_RANKING (activity user_inputs) 0 in
  candidates ← filter_candidates df (gender user_inputs) user_bmi_category;
  if is_empty candidates then Ok None
  else
    scores ← mapM (score_row user_inputs user_activity_rank) (rows candidates);
    select_best candidates scores.

(** *** The page *)

(** A piece of a formatted text: a literal, the value of a field, or
    [None]. *)
Inductive fragment : Type :=
  | Text (s : string)
  | Value (c : cell)
  | PyNone.

(** What the program does that can be observed: the elements it puts on
    the page, and its call of [find_best_match]. *)
Inductive event : Type :=
  | st_title (s : string)
  | st_markdown (s : string)
  | st_subheader (s : string)
  | st_error (msg : list fragment)
  | st_warning (msg : list fragment)
  | st_success (msg : list fragment)
  | st_info (msg : list fragment)
  | st_write (msg : list fragment)
  | st_expander (label : string)
  | query (df : DataFrame) (user_inputs : UserInputs).

(** A run of page code: the events so far and how it ended. *)
Record UI (A : Type) : Type := mkUI {
  trace : list event;
  outcome : result A
}.
Arguments mkUI {A} _ _.
Arguments trace {A} _.
Arguments outcome {A} _.

Global Instance UI_ret : MRet UI := λ A a, mkUI [] (Ok a).
Global Instance UI_bind : MBind UI := λ A B k m,
  match outcome m with
  | Ok a => mkUI (trace m ++ trace (k a)) (outcome (k a))
  | Raise e => mkUI (trace m) (Raise e)
  end.

Definition emit (e : event) : UI unit := mkUI [e] (Ok ()).
Definition lift {A} (r : result A) : UI A := mkUI [] r.

(** [row.get(col)] inside a formatted text. *)
Definition shown (r : Row) (col : string) : fragment :=
  match r !! col with
  | Some c => Value c
  | None => PyNone
  end.

Definition NO_MATCH_MESSAGE : string :=
  "Sorry, we couldn't find a suitable match in our dataset. Please try adjusting your inputs.".

(** [risk.title()] *)
Definition risk_title (risk : cell) : result string :=
  match risk with
  | Str s => Ok (Str.title s)
  | _ => Raise AttributeError
  end.

Definition display_results (best_match : option Row) : UI unit :=
  _ ← emit (st_subheader "Here is Your Personalized Advice");
  match best_match with
  | None => emit (st_error [Text NO_MATCH_MESSAGE])
  | Some row =>
      let advice :=
        row_get row "Dietary advice given" (Str "No specific advice available.") in
      let risk := row_get row "Malnutrition Risk Level" (Str "Not determined.") in
      t ← lift (risk_title risk);
      _ ← emit ((if bool_decide (risk = Str "HIGH RISK") then st_error
                 else if bool_decide (risk = Str "MEDIUM RISK") then st_warning
                 else st_success) [Text "**Malnutrition Risk:** "; Text t]);
      _ ← emit (st_info [Text "**Dietary Advice:** "; Value advice]);
      _ ← emit (st_expander "See Matched Profile Details");
      _ ← emit (st_write [Text "**Gender**: "; shown row "Gender"]);
      _ ← emit (st_write [Text "**BMI Category**: "; shown row "BMI Category"]);
      _ ← emit (st_write [Text "**Activity Level**: ";
                          shown row "Physical Activity level"]);
      _ ← emit (st_write [Text "**Dietary Advice**: "; Value advice]);
      emit (st_write [Text "**Malnutrition Risk**: "; Value risk])
  end.

Definition add_footer : UI unit :=
  _ ← emit (st_markdown "<hr>");
  emit (st_markdown "<p style='text-align: center;'>Made by Wabara Adanma</p>").

(** What the visitor does in the sidebar: the answers given and whether the
    button is pressed. *)
Record Sidebar : Type := mkSidebar {
  answers : UserInputs;
  get_my_advice : bool
}.

(** [get_user_input]: the gender options are read from the frame, the
    answers come from the sidebar. *)
Definition get_user_input (df : DataFrame) (sb : Sidebar) : result UserInputs :=
  _ ← getitem df "Gender";
  Ok (answers sb).

Definition DATASET_NOT_FOUND_MESSAGE : string :=
  "Dataset file not found. Please make sure 'Complete Secondary Data - Sheet1 (1).csv' is in the same directory.".

(** [main], given the outcome of reading the dataset file and the sidebar. *)
Definition main (read_csv : result DataFrame) (sb : Sidebar) : UI unit :=
  _ ← emit (st_title "🍎 Personalized Nutrition Advisor");
  _ ← emit (st_markdown "Enter your details in the sidebar to get personalized dietary advice based on our dataset.");
  df ← lift (load_and_preprocess_data read_csv);
  match df with
  | None => emit (st_error [Text DATASET_NOT_FOUND_MESSAGE])
  | Some df =>
      user_inputs ← lift (get_user_input df sb);
      _ ← (if get_my_advice sb then
             _ ← emit (query df user_inputs);
             best_match ← lift (find_best_match df user_inputs);
             display_results best_match
           else mret ());
      add_footer
  end.

(** ** Small runs *)

Definition row_of (l : list (string * cell)) : Row := list_to_map l.

Definition raw_example : DataFrame :=
  {| columns := ["Gender"; "BMI"; "BMI Category"; "Physical Activity level";
                 "Rice Consumption Rate"; "Beans Consumption Rate";
                 "Soft drinks Consumption Rate"; "Snacks Consumption Rate";
                 "Fruits Consumption Rate"; "Vegetables Consumption Rate";
                 "Dietary advice given"; "Malnutrition Risk Level"];
     rows := [
       row_of [("Gender", Str " female"); ("BMI", Num (qc 22));
               ("BMI Category", Str "Normal");
               ("Physical Activity level", Str "Active");
               ("Rice Consumption Rate", Str "often");
               ("Beans Consumption Rate", Str "Often ");
               ("Soft drinks Consumption Rate", Str "often");
               ("Snacks Consumption Rate", Str "often");
               ("Fruits Consumption Rate", Str "often");
               ("Vegetables Consumption Rate", Str "often");
               ("Dietary advice given", Str "Increase fiber");
               ("Malnutrition Risk Level", Str "Medium Risk")];
       row_of [("Gender", Str "Male"); ("BMI", NaN);
               ("BMI Category", Str "Normal");
               ("Physical Activity level", Str "Very Active");
               ("Rice Consumption Rate", Str "daily");
               ("Beans Consumption Rate", Str "Sometimes");
               ("Soft drinks Consumption Rate", Str "never");
               ("Snacks Consumption Rate", Str "sometimes");
               ("Fruits Consumption Rate", Str "rarely");
               ("Vegetables Consumption Rate", Str "often");
               ("Dietary advice given", Str "Eat more beans");
               ("Malnutrition Risk Level", Str "High Risk")]] |}.

Definition user_example : UserInputs :=
  {| bmi := qc 22; gender := "FEMALE"; activity := "ACTIVE";
     rice := "OFTEN"; beans := "OFTEN"; soft_drinks := "OFTEN";
     snacks := "OFTEN"; fruits := "OFTEN"; veg := "OFTEN" |}.

(** ** The wording of the specification *)

(** The position of the first minimum of a list of scores: its value is
    below or equal to every score, and strictly below every earlier one. *)
Definition first_minimum (scores : list Qc) (i : nat) : Prop :=
  ∃ m, scores !! i = Some m ∧
       (∀ j x, scores !! j = Some x → m ≤ x) ∧
       (∀ j x, (j < i)%nat → scores !! j = Some x → m < x).

(** The seven ranks the score compares. *)
Record Ranks : Type := mkRanks {
  ActivityRank : Qc;
  RiceRank : Qc;
  BeansRank : Qc;
  SoftDrinksRank : Qc;
  SnacksRank : Qc;
  FruitsRank : Qc;
  VegRank : Qc
}.

(** The score as the specification writes it. *)
Definition weighted_distance (c u : Ranks) : Qc :=
  qc 2.0 * Qcabs (ActivityRank c - ActivityRank u)
  + qc 1.0 * Qcabs (RiceRank c - RiceRank u)
  + qc 1.0 * Qcabs (BeansRank c - BeansRank u)
  + qc 1.5 * Qcabs (SoftDrinksRank c - SoftDrinksRank u)
  + qc 1.5 * Qcabs (SnacksRank c - SnacksRank u)
  + qc 1.0 * Qcabs (FruitsRank c - FruitsRank u)
  + qc 1.0 * Qcabs (VegRank c - VegRank u).

(** The ranks of a user profile. *)
Definition user_ranks (u : UserInputs) : Ranks :=
  {| ActivityRank := Qc_of_Z (dict_get ACTIVITY_RANKING (activity u) 0);
     RiceRank := Qc_of_Z (dict_get EATING_HABIT_RANKING (rice u) 0);
     BeansRank := Qc_of_Z (dict_get EATING_HABIT_RANKING (beans u) 0);
     SoftDrinksRank := Qc_of_Z (dict_get EATING_HABIT_RANKING (soft_drinks u) 0);
     SnacksRank := Qc_of_Z (dict_get EATING_HABIT_RANKING (snacks u) 0);
     FruitsRank := Qc_of_Z (dict_get EATING_HABIT_RANKING (fruits u) 0);
     VegRank := Qc_of_Z (dict_get EATING_HABIT_RANKING (veg u) 0) |}.

(** A rank field of a row, when the row has it and it is a number. *)
Definition rank_field (r : Row) (col : string) : option Qc :=
  match r !! col with
  | Some (Num q) => Some q
  | _ => None
  end.

(** The ranks of a candidate record. *)
Definition row_ranks (r : Row) : option Ranks :=
  a ← rank_field r "Activity_Rank";
  ri ← rank_field r "Rice Consumption Rate_Rank";
  be ← rank_field r "Beans Consumption Rate_Rank";
  sd ← rank_field r "Soft drinks Consumption Rate_Rank";
  sn ← rank_field r "Snacks Consumption Rate_Rank";
  fr ← rank_field r "Fruits Consumption Rate_Rank";
  ve ← rank_field r "Vegetables Consumption Rate_Rank";
  Some (mkRanks a ri be sd sn fr ve).

(** The rank a field gets from a ranking: the rank of its text, 0 for a
    text that is not a key and for a field that is not a text. *)
Definition rank_of_cell (ranking : gmap string Z) (c : cell) : Z :=
  match c with
  | Str k => dict_get ranking k 0
  | _ => 0
  end.

(** The record that matches a gender and a BMI category. *)
Definition matches (gender category : string) (r : Row) : Prop :=
  r !! "Gender" = Some (Str gender) ∧ r !! "BMI Category" = Some (Str category).

Global Instance matches_dec gender category r : Decision (matches gender category r).
Proof. unfold matches. apply _. Defined.

Definition is_query (e : event) : bool :=
  match e with
  | query _ _ => true
  | _ => false
  end.

(** A sidebar for the small runs. *)
Definition sidebar_example : Sidebar :=
  {| answers := user_example; get_my_advice := true |}.

(** ** Notions used in the proofs *)

(** [s.fillna(v)] and the text canonicalization, on one field. *)
Definition fill (v c : cell) : cell := if isna c then v else c.
Definition canonical (c : cell) : cell :=
  match c with
  | Str t => Str (Str.upper (Str.strip t))
  | _ => NaN
  end.

(** The rows of [df'] are the rows of [df], in order, each changed by the
    same function. *)
Definition rowwise (df df' : DataFrame) : Prop :=
  ∃ F : Row → Row, rows df' = F <$> rows df.

(** Every row holds an integer from 0 to 3 in the column. *)
Definition ranked (df : DataFrame) (col : string) : Prop :=
  ∀ r, r ∈ rows df →
       ∃ k : Z, r !! col = Some (Num (Qc_of_Z k)) ∧ (0 ≤ k ≤ 3)%Z.

(** The column is one of the frame and holds a rank in every row. *)
Definition rank_column_of (df : DataFrame) (col : string) : Prop :=
  has_column df col = true ∧ ranked df col.

(** Every record holds in [dst] the rank of what it holds in [src]. *)
Definition rank_of_own (ranking : gmap string Z) (src dst : string)
    (df : DataFrame) : Prop :=
  ∀ r, r ∈ rows df →
       r !! dst = Some (Num (Qc_of_Z (rank_of_cell ranking (field src r)))).

(** The columns of the raw data whose ranks the score reads. *)
Definition MATCH_COLUMNS : list string :=
  ["Physical Activity level"; "Rice Consumption Rate"; "Beans Consumption Rate";
   "Soft drinks Consumption Rate"; "Snacks Consumption Rate";
   "Fruits Consumption Rate"; "Vegetables Consumption Rate"].

(** A ranking whose ranks go from 0 to 3. *)
Definition good_ranking (ranking : gmap string Z) : Prop :=
  ∀ k, (0 ≤ dict_get ranking k 0 ≤ 3)%Z.

(** ** More small frames *)

(** Ages with one missing value. *)
Definition ages_example : DataFrame :=
  {| columns := ["Age"; "Gender"];
     rows := [row_of [("Age", Num (qc 30)); ("Gender", Str "Female")];
              row_of [("Age", NaN); ("Gender", Str "Male")];
              row_of [("Age", Num (qc 10)); ("Gender", Str "Male")];
              row_of [("Age", Num (qc 20)); ("Gender", Str "Female")]] |}.

(** An age column with no value at all. *)
Definition ages_missing_example : DataFrame :=
  {| columns := ["Age"; "Gender"];
     rows := [row_of [("Age", NaN); ("Gender", Str "Female")];
              row_of [("Age", NaN); ("Gender", Str "Male")]] |}.

(** Raw records with the measures, the activity level and the consumption
    rates, and no BMI category. *)
Definition raw_without_category : DataFrame :=
  {| columns := ["Gender"; "Age"; "Number of meals per day"; "Height in cm";
                 "Weight"; "BMI"; "Physical Activity level";
                 "Rice Consumption Rate"; "Beans Consumption Rate";
                 "Soft drinks Consumption Rate"; "Snacks Consumption Rate";
                 "Fruits Consumption Rate"; "Vegetables Consumption Rate"];
     rows := [
       row_of [("Gender", Str "Female"); ("Age", Num (qc 16));
               ("Number of meals per day", Num (qc 3));
               ("Height in cm", Num (qc 160)); ("Weight", Num (qc 80));
               ("BMI", Num (qc 31.25));
               ("Physical Activity level", Str "Active");
               ("Rice Consumption Rate", Str "Often");
               ("Beans Consumption Rate", Str "Rarely");
               ("Soft drinks Consumption Rate", Str "Daily");
               ("Snacks Consumption Rate", Str "Daily");
               ("Fruits Consumption Rate", Str "Never");
               ("Vegetables Consumption Rate", Str "Rarely")]] |}.

(** Four candidates and their scores 3, 1, 1, 4. *)
Definition four_candidates : DataFrame :=
  {| columns := ["Dietary advice given"];
     rows := [row_of [("Dietary advice given", Str "A")];
              row_of [("Dietary advice given", Str "B")];
              row_of [("Dietary advice given", Str "C")];
              row_of [("Dietary advice given", Str "D")]] |}.
Definition four_scores : list Qc := [qc 3; qc 1; qc 1; qc 4].

(** The first row of the preprocessed example and its ranks. *)
Definition ranked_row_example : Row :=
  row_of [("Gender", Str "FEMALE"); ("BMI Category", Str "NORMAL");
          ("Activity_Rank", Num (Qc_of_Z 2));
          ("Rice Consumption Rate_Rank", Num (Qc_of_Z 3));
          ("Beans Consumption Rate_Rank", Num (Qc_of_Z 2));
          ("Soft drinks Consumption Rate_Rank", Num (Qc_of_Z 0));
          ("Snacks Consumption Rate_Rank", Num (Qc_of_Z 1));
          ("Fruits Consumption Rate_Rank", Num (Qc_of_Z 2));
          ("Vegetables Consumption Rate_Rank", Num (Qc_of_Z 2))].
Definition ranks_example : Ranks :=
  mkRanks (Qc_of_Z 2) (Qc_of_Z 3) (Qc_of_Z 2) (Qc_of_Z 0) (Qc_of_Z 1)
          (Qc_of_Z 2) (Qc_of_Z 2).

(** A user nobody of the example resembles, and one with another BMI of the
    same category. *)
Definition obese_user_example : UserInputs :=
  {| bmi := qc 31; gender := "FEMALE"; activity := "ACTIVE";
     rice := "OFTEN"; beans := "OFTEN"; soft_drinks := "OFTEN";
     snacks := "OFTEN"; fruits := "OFTEN"; veg := "OFTEN" |}.
Definition user_example_bis : UserInputs :=
  {| bmi := qc 24.9; gender := "FEMALE"; activity := "ACTIVE";
     rice := "OFTEN"; beans := "OFTEN"; soft_drinks := "OFTEN";
     snacks := "OFTEN"; fruits := "OFTEN"; veg := "OFTEN" |}.

(** The rank columns the score reads. *)
Definition RANK_COLUMNS : list string :=
  ["Activity_Rank"; "Rice Consumption Rate_Rank"; "Beans Consumption Rate_Rank";
   "Soft drinks Consumption Rate_Rank"; "Snacks Consumption Rate_Rank";
   "Fruits Consumption Rate_Rank"; "Vegetables Consumption Rate_Rank"].

(** A rank field that the score can use: present, and a number or NaN. *)
Definition usable_rank (row : Row) (col : string) : Prop :=
  ∃ c, row !! col = Some c ∧ is_Str c = false.

(** ** Frames for the runs of the further properties *)

(** One record with its ranks, one record with the ranks of [user_example],
    and raw data with a count that is no measure of the Normalizer. *)
Definition ranked_frame_example : DataFrame :=
  {| columns := ["Gender"; "BMI Category"; "Activity_Rank";
                 "Rice Consumption Rate_Rank"; "Beans Consumption Rate_Rank";
                 "Soft drinks Consumption Rate_Rank";
                 "Snacks Consumption Rate_Rank"; "Fruits Consumption Rate_Rank";
                 "Vegetables Consumption Rate_Rank"];
     rows := [ranked_row_example] |}.

Definition exact_row_example : Row :=
  row_of [("Gender", Str "FEMALE"); ("BMI Category", Str "NORMAL");
          ("Activity_Rank", Num (Qc_of_Z 2));
          ("Rice Consumption Rate_Rank", Num (Qc_of_Z 2));
          ("Beans Consumption Rate_Rank", Num (Qc_of_Z 2));
          ("Soft drinks Consumption Rate_Rank", Num (Qc_of_Z 2));
          ("Snacks Consumption Rate_Rank", Num (Qc_of_Z 2));
          ("Fruits Consumption Rate_Rank", Num (Qc_of_Z 2));
          ("Vegetables Consumption Rate_Rank", Num (Qc_of_Z 2))].

Definition household_example : DataFrame :=
  {| columns := ["Household size"; "Gender"];
     rows := [row_of [("Household size", Num (qc 4)); ("Gender", Str " female ")];
              row_of [("Household size", NaN); ("Gender", Str "Male")];
              row_of [("Household size", Num (qc 6)); ("Gender", Str "male")]] |}.

(** * Properties *)

(** ** Arithmetic on canonical rationals *)

(** Goals on [Qc] orders with decimal constants, sent to [lra] on [Q]. *)
Ltac qc_to_q :=
  unfold Qcle, Qclt, qc in *; cbn [this Q2Qc] in *;
  repeat match goal with
    | |- context [Qred ?q] =>
        let r := eval vm_compute in (Qred q) in change (Qred q) with r
    | H : context [Qred ?q] |- _ =>
        let r := eval vm_compute in (Qred q) in change (Qred q) with r in H
    end.
Ltac qc_lra := qc_to_q; lra.

Lemma Qcabs_nonneg x : 0 ≤ Qcabs x.
Proof.
  unfold Qcabs. case_decide as Hx; [done|].
  apply Qcnot_le_lt, Qclt_le_weak, Qcopp_le_compat in Hx. exact Hx.
Qed.

(** ** Categorizer *)

(** C2. [categorize_bmi] is defined on every BMI, negative ones included,
    and follows the half-open intervals: below 18.5 underweight, from 18.5
    to below 25 normal, from 25 to below 30 overweight, from 30 to below 35
    obesity class 1, from 35 to below 40 obesity class 2, from 40 on the
    last category; a boundary belongs to the higher category. *)
Theorem categorize_bmi_total_boundaries (bmi : Qc) :
  (bmi < qc 18.5 → categorize_bmi bmi = "UNDERWEIGHT") ∧
  (qc 18.5 ≤ bmi < qc 25 → categorize_bmi bmi = "NORMAL") ∧
  (qc 25 ≤ bmi < qc 30 → categorize_bmi bmi = "OVERWEIGHT") ∧
  (qc 30 ≤ bmi < qc 35 → categorize_bmi bmi = "OBESITY (CLASS 1)") ∧
  (qc 35 ≤ bmi < qc 40 → categorize_bmi bmi = "OBESITY (CLASS 2)") ∧
  (qc 40 ≤ bmi → categorize_bmi bmi = "SEVERE/MORBID OBESITY") ∧
  (bmi < qc 18.5 ∨ qc 18.5 ≤ bmi < qc 25 ∨ qc 25 ≤ bmi < qc 30 ∨
   qc 30 ≤ bmi < qc 35 ∨ qc 35 ≤ bmi < qc 40 ∨ qc 40 ≤ bmi) ∧
  categorize_bmi (qc 18.5) = "NORMAL" ∧
  categorize_bmi (qc 18.49) = "UNDERWEIGHT" ∧
  categorize_bmi (qc 24.999) = "NORMAL" ∧
  categorize_bmi (qc 25.0) = "OVERWEIGHT" ∧
  categorize_bmi (qc 30.0) = "OBESITY (CLASS 1)" ∧
  categorize_bmi (qc 35.0) = "OBESITY (CLASS 2)" ∧
  categorize_bmi (qc 40.0) = "SEVERE/MORBID OBESITY" ∧
  categorize_bmi (qc (-3)) = "UNDERWEIGHT".
Proof.
  split_and!; try reflexivity.
  1-6: unfold categorize_bmi; (intros [? ?] || intros ?);
       repeat (case_bool_decide; simpl); try reflexivity; exfalso; qc_lra.
  destruct (Qclt_le_dec bmi (qc 18.5)); [by left|right].
  destruct (Qclt_le_dec bmi (qc 25)); [by left|right].
  destruct (Qclt_le_dec bmi (qc 30)); [by left|right].
  destruct (Qclt_le_dec bmi (qc 35)); [by left|right].
  destruct (Qclt_le_dec bmi (qc 40)); [by left|by right].
Qed.

(** ** Ordinal mappings *)

Lemma dict_get_unknown (d : gmap string Z) k dflt :
  d !! k = None → dict_get d k dflt = dflt.
Proof. unfold dict_get. by intros ->. Qed.

(** The ranking of a column, then the fill with 0, gives each field the
    rank of its text. *)
Lemma fillna_map_dict ranking (s : Series) :
  fillna (Num (Qc_of_Z 0)) (map_dict ranking s)
  = (λ c, Num (Qc_of_Z (rank_of_cell ranking c))) <$> s.
Proof.
  unfold fillna, map_dict. rewrite <-list_fmap_compose.
  apply list_fmap_ext. intros _ c _. simpl.
  destruct c as [| |k]; simpl; try done.
  unfold dict_get. by destruct (ranking !! k).
Qed.

Lemma good_ranking_list (l : list (string * Z)) :
  Forall (λ kv, 0 ≤ kv.2 ≤ 3)%Z l → good_ranking (list_to_map l).
Proof.
  intros Hl k. unfold dict_get.
  destruct (list_to_map l !! k) as [z|] eqn:Hz; simpl; [|lia].
  apply elem_of_list_to_map_2 in Hz.
  rewrite Forall_forall in Hl. by apply (Hl (k, z)).
Qed.

Lemma good_EATING_HABIT_RANKING : good_ranking EATING_HABIT_RANKING.
Proof. apply good_ranking_list. repeat constructor; simpl; lia. Qed.

Lemma good_ACTIVITY_RANKING : good_ranking ACTIVITY_RANKING.
Proof. apply good_ranking_list. repeat constructor; simpl; lia. Qed.

Lemma rank_of_cell_range ranking c :
  good_ranking ranking → (0 ≤ rank_of_cell ranking c ≤ 3)%Z.
Proof. intros Hg. destruct c; simpl; [lia|lia|apply Hg]. Qed.

(** ** Candidate filter *)

Lemma has_column_true df c : has_column df c = true ↔ c ∈ columns df.
Proof. unfold has_column. apply bool_decide_eq_true. Qed.

Lemma field_eq_Str col r t : field col r = Str t ↔ r !! col = Some (Str t).
Proof.
  unfold field. destruct (r !! col) as [c|]; simpl; split; congruence.
Qed.

(** The mask of the program selects the rows that match. *)
Lemma select_matches (l : list Row) gender category :
  select l (mask_and (eq_str (field "Gender" <$> l) gender)
                     (eq_str (field "BMI Category" <$> l) category))
  = filter (matches gender category) l.
Proof.
  induction l as [|r l IH]; [done|].
  cbn [fmap list_fmap eq_str mask_and zip_with select].
  unfold eq_str, mask_and in IH. rewrite IH.
  rewrite filter_cons.
  repeat case_bool_decide; simpl; case_decide as Hm; try done;
    unfold matches in Hm; rewrite <-!field_eq_Str in Hm; tauto.
Qed.

Lemma filter_candidates_ok df gender category :
  has_column df "Gender" = true → has_column df "BMI Category" = true →
  filter_candidates df gender category
  = Ok {| columns := columns df;
          rows := filter (matches gender category) (rows df) |}.
Proof.
  intros Hg Hc. unfold filter_candidates, getitem. rewrite Hg, Hc. simpl.
  unfold getitem_mask, column. by rewrite select_matches.
Qed.

(** C4. For a dataset with the gender and BMI category columns, a gender
    and a category, the candidate filter returns, without an error, exactly
    the records whose stored gender is the gender and whose stored category
    is the category, in the order of the dataset; the result can be empty. *)
Theorem filter_candidates_conjunction (df : DataFrame) (g c : string) :
  has_column df "Gender" = true →
  has_column df "BMI Category" = true →
  ∃ candidates,
    filter_candidates df g c = Ok candidates ∧
    columns candidates = columns df ∧
    rows candidates = filter (matches g c) (rows df) ∧
    rows candidates `sublist_of` rows df ∧
    (∀ r, r ∈ rows candidates ↔ matches g c r ∧ r ∈ rows df).
Proof.
  intros Hg Hc. eexists. split; [by apply filter_candidates_ok|]. simpl.
  split_and!; [done|done|apply sublist_filter|].
  intros r. apply list_elem_of_filter.
Qed.

Lemma filter_candidates_conjunction_witness :
  has_column (preprocess raw_example) "Gender" = true ∧
  has_column (preprocess raw_example) "BMI Category" = true ∧
  ∃ candidates,
    filter_candidates (preprocess raw_example) "FEMALE" "NORMAL" = Ok candidates ∧
    columns candidates = columns (preprocess raw_example) ∧
    rows candidates
      = filter (matches "FEMALE" "NORMAL") (rows (preprocess raw_example)) ∧
    rows candidates `sublist_of` rows (preprocess raw_example) ∧
    (∀ r, r ∈ rows candidates
          ↔ matches "FEMALE" "NORMAL" r ∧ r ∈ rows (preprocess raw_example)).
Proof.
  split; [by vm_compute|]. split; [by vm_compute|].
  apply (filter_candidates_conjunction (preprocess raw_example) "FEMALE" "NORMAL");
    by vm_compute.
Defined.

(** ** Selector *)

(** The scan of [np.argmin], started on a running minimum [m] found at
    [mi]: either the minimum stays, and no element is below it, or it moves
    to the first position of the least element. *)
Lemma argmin_loop_spec (l : list Qc) : ∀ (m : Qc) (mi i : nat),
  (Numpy.argmin_loop (fnum m) mi i (fnum <$> l) = mi ∧ ∀ x, x ∈ l → m ≤ x) ∨
  (∃ j y, Numpy.argmin_loop (fnum m) mi i (fnum <$> l) = (i + j)%nat ∧
          l !! j = Some y ∧ y < m ∧
          (∀ j' x, (j' < j)%nat → l !! j' = Some x → y < x) ∧
          (∀ x, x ∈ l → y ≤ x)).
Proof.
  induction l as [|x l IH]; intros m mi i.
  - left. split; [done|]. intros x Hx. by apply elem_of_nil in Hx.
  - rewrite fmap_cons. cbn [Numpy.argmin_loop Numpy.fge].
    destruct (decide (m ≤ x)) as [Hmx|Hmx].
    + rewrite bool_decide_eq_true_2 by done.
      destruct (IH m mi (S i))
        as [[Hk Hall]|(j & y & Hk & Hj & Hlt & Hearly & Hall)]; rewrite Hk.
      * left. split; [done|]. intros z [->|Hz]%elem_of_cons; auto.
      * right. exists (S j), y. split_and!; [lia|done|done|..].
        -- intros [|j'] z Hj' Hz; simpl in Hz.
           ++ injection Hz as <-. eapply Qclt_le_trans; eauto.
           ++ apply (Hearly j'); [lia|done].
        -- intros z [->|Hz]%elem_of_cons; auto.
           apply Qclt_le_weak. eapply Qclt_le_trans; eauto.
    + rewrite bool_decide_eq_false_2 by done.
      apply Qcnot_le_lt in Hmx.
      destruct (IH x i (S i))
        as [[Hk Hall]|(j & y & Hk & Hj & Hlt & Hearly & Hall)]; rewrite Hk.
      * right. exists 0%nat, x. split_and!; [lia|done|done|..].
        -- intros j' z Hj'. lia.
        -- intros z [->|Hz]%elem_of_cons; auto using Qcle_refl.
      * right. exists (S j), y. split_and!; [lia|done|..].
        -- eapply Qclt_trans; eauto.
        -- intros [|j'] z Hj' Hz; simpl in Hz.
           ++ by injection Hz as <-.
           ++ apply (Hearly j'); [lia|done].
        -- intros z [->|Hz]%elem_of_cons; auto. by apply Qclt_le_weak.
Qed.

Lemma argmin_first_minimum (scores : list Qc) :
  scores ≠ [] →
  ∃ i, Numpy.argmin (fnum <$> scores) = Ok i ∧ first_minimum scores i.
Proof.
  destruct scores as [|m l]; [done|]. intros _. rewrite fmap_cons.
  cbn [Numpy.argmin].
  destruct (argmin_loop_spec l m 0 1)
    as [[Hk Hall]|(j & y & Hk & Hj & Hlt & Hearly & Hall)]; rewrite Hk.
  - exists 0%nat. split; [done|]. exists m. split_and!; [done| |intros; lia].
    intros [|j] x Hx; simpl in Hx.
    + injection Hx as <-. apply Qcle_refl.
    + apply Hall. eapply list_elem_of_lookup_2; eauto.
  - exists (S j). split; [done|]. exists y. split_and!; [done|..].
    + intros [|j'] x Hx; simpl in Hx.
      * injection Hx as <-. by apply Qclt_le_weak.
      * apply Hall. eapply list_elem_of_lookup_2; eauto.
    + intros [|j'] x Hj' Hx; simpl in Hx.
      * by injection Hx as <-.
      * apply (Hearly j'); [lia|done].
Qed.

Lemma select_best_argmin (candidates : DataFrame) (scores : list Qc) :
  scores ≠ [] →
  length (rows candidates) = length scores →
  ∃ i r, first_minimum scores i ∧ rows candidates !! i = Some r ∧
         select_best candidates (fnum <$> scores) = Ok (Some r).
Proof.
  intros Hne Hlen.
  destruct (argmin_first_minimum scores Hne) as (i & Hi & Hmin).
  assert (is_Some (rows candidates !! i)) as [r Hr].
  { apply lookup_lt_is_Some. rewrite Hlen. destruct Hmin as (m & Hm & _).
    by eapply lookup_lt_Some. }
  exists i, r. split_and!; [done..|].
  unfold select_best. rewrite bool_decide_eq_false_2.
  - rewrite Hi. simpl. unfold iloc. by rewrite Hr.
  - by destruct scores.
Qed.

(** C1. For candidates that are not empty and their scores, the selector
    returns the candidate at the position of the minimum score, the first
    such position when several scores are minimal, as [np.argmin] does; for
    the scores 3, 1, 1, 4 the position is 1. *)
Theorem select_best_first_minimum (candidates : DataFrame) (scores : list Qc) :
  scores ≠ [] →
  length (rows candidates) = length scores →
  (∃ i r, first_minimum scores i ∧ rows candidates !! i = Some r ∧
          select_best candidates (fnum <$> scores) = Ok (Some r)) ∧
  Numpy.argmin (fnum <$> [qc 3; qc 1; qc 1; qc 4]) = Ok 1%nat ∧
  first_minimum [qc 3; qc 1; qc 1; qc 4] 1.
Proof.
  intros Hne Hlen. split; [by apply select_best_argmin|].
  split; [reflexivity|].
  destruct (argmin_first_minimum [qc 3; qc 1; qc 1; qc 4]) as (i & Hi & Hmin);
    [done|].
  vm_compute in Hi. by injection Hi as <-.
Qed.

Lemma select_best_first_minimum_witness :
  four_scores ≠ [] ∧
  length (rows four_candidates) = length four_scores ∧
  select_best four_candidates (fnum <$> four_scores)
    = Ok (Some (row_of [("Dietary advice given", Str "B")])) ∧
  (∃ i r, first_minimum four_scores i ∧ rows four_candidates !! i = Some r ∧
          select_best four_candidates (fnum <$> four_scores) = Ok (Some r)).
Proof.
  split; [done|]. split; [reflexivity|]. split; [reflexivity|].
  apply (select_best_first_minimum four_candidates four_scores); [done|reflexivity].
Defined.

(** ** Scorer *)

Lemma rank_field_Some r col q :
  rank_field r col = Some q → r !! col = Some (Num q).
Proof.
  unfold rank_field. destruct (r !! col) as [[]|]; congruence.
Qed.

Lemma rank_distance_Num r col q k :
  rank_field r col = Some q →
  rank_distance r col k = Ok (fnum (Qcabs (q - Qc_of_Z k))).
Proof.
  intros H%rank_field_Some. unfold rank_distance, row_getitem. by rewrite H.
Qed.

Lemma weighted_distance_nonneg c u : 0 ≤ weighted_distance c u.
Proof.
  unfold weighted_distance.
  assert (∀ w x, 0 ≤ w → 0 ≤ w * Qcabs x) as Hw.
  { intros. apply Qcmult_nonneg_nonneg; [done|apply Qcabs_nonneg]. }
  do 6 (apply Qcplus_nonneg_nonneg; [|by apply Hw]). by apply Hw.
Qed.

(** The loop body computes the weighted sum of the specification. *)
Lemma score_row_ranks (row : Row) (u : UserInputs) (c : Ranks) :
  row_ranks row = Some c →
  score_row u (dict_get ACTIVITY_RANKING (activity u) 0) row
    = Ok (fnum (weighted_distance c (user_ranks u))).
Proof.
  intros Hc. unfold row_ranks in Hc.
  destruct (rank_field row "Activity_Rank") as [a|] eqn:Ha; [|done].
  destruct (rank_field row "Rice Consumption Rate_Rank") as [ri|] eqn:Hri; [|done].
  destruct (rank_field row "Beans Consumption Rate_Rank") as [be|] eqn:Hbe; [|done].
  destruct (rank_field row "Soft drinks Consumption Rate_Rank")
    as [sd|] eqn:Hsd; [|done].
  destruct (rank_field row "Snacks Consumption Rate_Rank") as [sn|] eqn:Hsn; [|done].
  destruct (rank_field row "Fruits Consumption Rate_Rank") as [fr|] eqn:Hfr; [|done].
  destruct (rank_field row "Vegetables Consumption Rate_Rank")
    as [ve|] eqn:Hve; [|done].
  injection Hc as <-.
  unfold score_row.
  rewrite (rank_distance_Num _ _ _ _ Ha), (rank_distance_Num _ _ _ _ Hri),
    (rank_distance_Num _ _ _ _ Hbe), (rank_distance_Num _ _ _ _ Hsd),
    (rank_distance_Num _ _ _ _ Hsn), (rank_distance_Num _ _ _ _ Hfr),
    (rank_distance_Num _ _ _ _ Hve).
  cbn [mbind result_bind fmul fadd]. do 2 f_equal.
  unfold weighted_distance, user_ranks;
    cbn [ActivityRank RiceRank BeansRank SoftDrinksRank SnacksRank FruitsRank VegRank].
  replace (qc 1.0) with 1 by (by apply Qc_is_canon).
  replace (qc 2.0) with (qc 2) by (by apply Qc_is_canon).
  ring.
Qed.

(** C3. For a candidate record with its seven ranks and a user profile, the
    score is the weighted sum of the absolute rank differences, with weight
    2.0 for the activity, 1.5 for soft drinks and for snacks, 1.0 for rice,
    beans, fruits and vegetables; it is not negative.  The score is a
    function of the record and the profile. *)
Theorem score_row_weighted_distance (row : Row) (u : UserInputs) (c : Ranks) :
  row_ranks row = Some c →
  score_row u (dict_get ACTIVITY_RANKING (activity u) 0) row
    = Ok (fnum (weighted_distance c (user_ranks u))) ∧
  0 ≤ weighted_distance c (user_ranks u).
Proof.
  intros Hc. split; [by apply score_row_ranks|apply weighted_distance_nonneg].
Qed.

Lemma score_row_weighted_distance_witness :
  row_ranks ranked_row_example = Some ranks_example ∧
  score_row user_example (dict_get ACTIVITY_RANKING (activity user_example) 0)
    ranked_row_example
    = Ok (fnum (weighted_distance ranks_example (user_ranks user_example))) ∧
  0 ≤ weighted_distance ranks_example (user_ranks user_example) ∧
  weighted_distance ranks_example (user_ranks user_example) = qc 5.5.
Proof.
  split; [reflexivity|].
  split; [|split].
  - apply (score_row_weighted_distance ranked_row_example user_example
             ranks_example). reflexivity.
  - apply (score_row_weighted_distance ranked_row_example user_example
             ranks_example). reflexivity.
  - apply Qc_is_canon. reflexivity.
Defined.

(** ** The whole match *)

Lemma mapM_score_rows u (l : list Row) (cs : list Ranks) :
  Forall2 (λ r c, row_ranks r = Some c) l cs →
  mapM (score_row u (dict_get ACTIVITY_RANKING (activity u) 0)) l
  = Ok ((λ c, fnum (weighted_distance c (user_ranks u))) <$> cs).
Proof.
  induction 1 as [|r c l cs Hr _ IH]; [done|].
  cbn [mapM]. rewrite (score_row_ranks r u c Hr).
  cbn [mbind result_bind]. by rewrite IH.
Qed.

(** On a dataset whose candidates have their ranks, [find_best_match]
    returns the candidate at the first minimum of the weighted distances. *)
Corollary find_best_match_first_minimum (df : DataFrame) (u : UserInputs)
    (cs : list Ranks) :
  let candidates :=
    filter (matches (gender u) (categorize_bmi (bmi u))) (rows df) in
  let scores := (λ c, weighted_distance c (user_ranks u)) <$> cs in
  has_column df "Gender" = true →
  has_column df "BMI Category" = true →
  Forall2 (λ r c, row_ranks r = Some c) candidates cs →
  cs ≠ [] →
  ∃ i r, first_minimum scores i ∧ candidates !! i = Some r ∧
         find_best_match df u = Ok (Some r).
Proof.
  intros candidates scores Hg Hc Hcs Hne.
  assert (scores ≠ []) as Hsc by (unfold scores; by destruct cs).
  destruct (select_best_argmin
              {| columns := columns df; rows := candidates |} scores Hsc)
    as (i & r & Hmin & Hr & Hsel).
  { simpl. unfold scores. rewrite length_fmap. by eapply Forall2_length. }
  exists i, r. split_and!; [done..|].
  unfold find_best_match. rewrite filter_candidates_ok by done.
  cbn [mbind result_bind]. fold candidates.
  assert (is_empty {| columns := columns df; rows := candidates |} = false) as ->.
  { unfold is_empty. simpl. apply orb_false_iff. split; apply bool_decide_eq_false.
    - intros Hnil. rewrite Hnil in Hcs. apply Forall2_nil_inv_l in Hcs. done.
    - intros Hnil. apply bool_decide_eq_true in Hg. rewrite Hnil in Hg.
      by apply elem_of_nil in Hg. }
  cbn [rows]. rewrite (mapM_score_rows u candidates cs Hcs), <-Hsel.
  unfold scores. by rewrite <-list_fmap_compose.
Qed.

(** A run of the whole program on the small example: the two records are
    normalized, the first one is the match. *)
Example main_example :
  match find_best_match (preprocess raw_example) user_example with
  | Ok (Some r) => r !! "Dietary advice given"
  | _ => None
  end = Some (Str "INCREASE FIBER") ∧
  (λ r, r !! "Dietary advice given") <$> rows (preprocess raw_example)
    = [Some (Str "INCREASE FIBER"); Some (Str "EAT MORE BEANS")] ∧
  (λ r, rank_of_cell EATING_HABIT_RANKING (field "Beans Consumption Rate" r))
    <$> rows (preprocess raw_example) = [2%Z; 0%Z] ∧
  List.filter (λ e, negb (is_query e))
    (trace (main (Ok raw_example) sidebar_example))
    = [st_title "🍎 Personalized Nutrition Advisor";
       st_markdown "Enter your details in the sidebar to get personalized dietary advice based on our dataset.";
       st_subheader "Here is Your Personalized Advice";
       st_warning [Text "**Malnutrition Risk:** "; Text "Medium Risk"];
       st_info [Text "**Dietary Advice:** "; Value (Str "INCREASE FIBER")];
       st_expander "See Matched Profile Details";
       st_write [Text "**Gender**: "; Value (Str "FEMALE")];
       st_write [Text "**BMI Category**: "; Value (Str "NORMAL")];
       st_write [Text "**Activity Level**: "; Value (Str "ACTIVE")];
       st_write [Text "**Dietary Advice**: "; Value (Str "INCREASE FIBER")];
       st_write [Text "**Malnutrition Risk**: "; Value (Str "MEDIUM RISK")];
       st_markdown "<hr>";
       st_markdown "<p style='text-align: center;'>Made by Wabara Adanma</p>"].
Proof. split_and!; by vm_compute. Qed.

(** A run with a user nobody resembles: the page shows the message and
    the footer, and ends normally. *)
Example main_no_match_example :
  List.filter (λ e, negb (is_query e))
    (trace (main (Ok raw_example)
              {| answers := obese_user_example; get_my_advice := true |}))
    = [st_title "🍎 Personalized Nutrition Advisor";
       st_markdown "Enter your details in the sidebar to get personalized dietary advice based on our dataset.";
       st_subheader "Here is Your Personalized Advice";
       st_error [Text NO_MATCH_MESSAGE];
       st_markdown "<hr>";
       st_markdown "<p style='text-align: center;'>Made by Wabara Adanma</p>"] ∧
  outcome (main (Ok raw_example)
             {| answers := obese_user_example; get_my_advice := true |}) = Ok ().
Proof. split; by vm_compute. Qed.

(** C6. When no record of the dataset has the gender of the user and the
    category of the user's BMI, [find_best_match] returns [None], without an
    exception and without a default record; [None] holds no field, and the
    page shows the message that no match was found and ends normally. *)
Theorem no_candidates_no_match (df : DataFrame) (u : UserInputs) :
  has_column df "Gender" = true →
  has_column df "BMI Category" = true →
  (∀ r, r ∈ rows df → ¬ matches (gender u) (categorize_bmi (bmi u)) r) →
  find_best_match df u = Ok None ∧
  display_results None
    = mkUI [st_subheader "Here is Your Personalized Advice";
            st_error [Text NO_MATCH_MESSAGE]] (Ok ()).
Proof.
  intros Hg Hc Hno. split; [|reflexivity].
  unfold find_best_match. rewrite filter_candidates_ok by done.
  cbn [mbind result_bind].
  replace (filter _ (rows df)) with (@nil Row); [done|].
  symmetry. apply elem_of_nil_inv. intros r [Hm Hr]%list_elem_of_filter.
  by apply (Hno r).
Qed.

Lemma no_candidates_no_match_witness :
  has_column (preprocess raw_example) "Gender" = true ∧
  has_column (preprocess raw_example) "BMI Category" = true ∧
  Forall (λ r, ¬ matches (gender obese_user_example)
                         (categorize_bmi (bmi obese_user_example)) r)
         (rows (preprocess raw_example)) ∧
  find_best_match (preprocess raw_example) obese_user_example = Ok None ∧
  display_results None
    = mkUI [st_subheader "Here is Your Personalized Advice";
            st_error [Text NO_MATCH_MESSAGE]] (Ok ()).
Proof.
  assert (Forall (λ r, ¬ matches (gender obese_user_example)
                         (categorize_bmi (bmi obese_user_example)) r)
            (rows (preprocess raw_example))) as Hno.
  { apply (bool_decide_unpack _). by vm_compute. }
  split; [by vm_compute|]. split; [by vm_compute|]. split; [exact Hno|].
  apply (no_candidates_no_match (preprocess raw_example) obese_user_example);
    [by vm_compute|by vm_compute|].
  by apply Forall_forall.
Defined.

(** C10. The BMI of the user acts on the match through its category only:
    two profiles that differ in the BMI alone, with both BMI values in the
    same category, get the same result on every dataset. *)
Theorem bmi_only_through_category (df : DataFrame) (u1 u2 : UserInputs) :
  gender u1 = gender u2 → activity u1 = activity u2 →
  rice u1 = rice u2 → beans u1 = beans u2 →
  soft_drinks u1 = soft_drinks u2 → snacks u1 = snacks u2 →
  fruits u1 = fruits u2 → veg u1 = veg u2 →
  categorize_bmi (bmi u1) = categorize_bmi (bmi u2) →
  find_best_match df u1 = find_best_match df u2.
Proof.
  intros Hg Ha Hr Hb Hsd Hsn Hf Hv Hc.
  unfold find_best_match, score_row.
  by rewrite Hg, Ha, Hr, Hb, Hsd, Hsn, Hf, Hv, Hc.
Qed.

Lemma bmi_only_through_category_witness :
  bmi user_example ≠ bmi user_example_bis ∧
  categorize_bmi (bmi user_example) = categorize_bmi (bmi user_example_bis) ∧
  find_best_match (preprocess raw_example) user_example
    = find_best_match (preprocess raw_example) user_example_bis.
Proof.
  split; [by vm_compute|]. split; [reflexivity|].
  apply (bmi_only_through_category (preprocess raw_example)
           user_example user_example_bis); reflexivity.
Defined.

(** ** Loading *)

(** C7, as the code has it.  When the dataset file is absent, loading
    returns [None] and raises nothing, [main] shows the message that the
    file was not found and ends, and it calls [find_best_match] on no
    dataset.  No failure of the read leads to a call of [find_best_match],
    and a dataset that loading returns is the preprocessing of the file that
    was read, never a part of it. *)
Theorem file_not_found_no_query (sb : Sidebar) :
  load_and_preprocess_data (Raise FileNotFoundError) = Ok None ∧
  main (Raise FileNotFoundError) sb
    = mkUI [st_title "🍎 Personalized Nutrition Advisor";
            st_markdown "Enter your details in the sidebar to get personalized dietary advice based on our dataset.";
            st_error [Text DATASET_NOT_FOUND_MESSAGE]] (Ok ()) ∧
  (∀ e, List.filter is_query (trace (main (Raise e) sb)) = []) ∧
  (∀ read_csv d, load_and_preprocess_data read_csv = Ok (Some d) →
                 ∃ df, read_csv = Ok df ∧ d = preprocess df).
Proof.
  split_and!; try reflexivity.
  - intros []; reflexivity.
  - intros [df|e] d H; cbn [load_and_preprocess_data] in H.
    + injection H as <-. by exists df.
    + by destruct e.
Qed.

(** C7, as the specification has it, fails on a file that is present and
    cannot be read: the handler catches [FileNotFoundError] only, so the
    exception of the read leaves [load_and_preprocess_data] and [main]. *)
Lemma unreadable_file_raises :
  load_and_preprocess_data (Raise PermissionError) = Raise PermissionError ∧
  outcome (main (Raise PermissionError) sidebar_example) = Raise PermissionError.
Proof. split; reflexivity. Qed.
(** ** Normalizer *)

(** *** Assignment of a column computed row by row *)

Section setitem.
Context (df : DataFrame) (c : string) (g : Row → cell).

Lemma rows_setitem_fmap :
  rows (setitem df c (g <$> rows df)) = (λ r, <[c := g r]> r) <$> rows df.
Proof. simpl. by rewrite zip_with_fmap_r, zip_with_diag. Qed.

Lemma columns_setitem s :
  columns (setitem df c s)
  = (if has_column df c then columns df else columns df ++ [c])%list.
Proof. done. Qed.

Lemma column_setitem_eq : column (setitem df c (g <$> rows df)) c = g <$> rows df.
Proof.
  unfold column. rewrite rows_setitem_fmap, <-list_fmap_compose.
  apply list_fmap_ext. intros _ r _. simpl. unfold field.
  by rewrite lookup_insert_eq.
Qed.

Lemma column_setitem_ne col :
  c ≠ col → column (setitem df c (g <$> rows df)) col = column df col.
Proof.
  intros Hne. unfold column. rewrite rows_setitem_fmap, <-list_fmap_compose.
  apply list_fmap_ext. intros _ r _. simpl. unfold field.
  by rewrite lookup_insert_ne.
Qed.
End setitem.

(** The series the program assigns, as functions of the row. *)
Lemma fillna_column df v c :
  fillna v (column df c) = (λ r, fill v (field c r)) <$> rows df.
Proof. unfold fillna, column. by rewrite <-list_fmap_compose. Qed.

Lemma canonical_column df c :
  str_upper (str_strip (column df c)) = (λ r, canonical (field c r)) <$> rows df.
Proof.
  unfold str_upper, str_strip, column. rewrite <-!list_fmap_compose.
  apply list_fmap_ext. intros _ r _. simpl. by destruct (field c r).
Qed.

Lemma rank_column ranking df c :
  fillna (Num (Qc_of_Z 0)) (map_dict ranking (column df c))
  = (λ r, Num (Qc_of_Z (rank_of_cell ranking (field c r)))) <$> rows df.
Proof. rewrite fillna_map_dict. unfold column. by rewrite <-list_fmap_compose. Qed.

(** Every step is an assignment row by row, or nothing. *)
Lemma rowwise_refl df : rowwise df df.
Proof. exists id. by rewrite list_fmap_id. Qed.

Lemma rowwise_trans df1 df2 df3 : rowwise df1 df2 → rowwise df2 df3 → rowwise df1 df3.
Proof.
  intros [F HF] [G HG]. exists (G ∘ F). by rewrite HG, HF, <-list_fmap_compose.
Qed.

Lemma rowwise_impute_median df c : rowwise df (impute_median df c).
Proof.
  unfold impute_median. case_match; [|apply rowwise_refl].
  rewrite fillna_column. eexists. apply rows_setitem_fmap.
Qed.

Lemma rowwise_canonicalize df c : rowwise df (canonicalize df c).
Proof.
  unfold canonicalize. case_match; [|apply rowwise_refl].
  rewrite canonical_column. eexists. apply rows_setitem_fmap.
Qed.

Lemma rowwise_add_rank ranking src dst df : rowwise df (add_rank ranking src dst df).
Proof. unfold add_rank. rewrite rank_column. eexists. apply rows_setitem_fmap. Qed.

Lemma rowwise_foldl (f : DataFrame → string → DataFrame) l :
  (∀ df c, rowwise df (f df c)) → ∀ df, rowwise df (foldl f df l).
Proof.
  intros Hf. induction l as [|c l IH]; intros df; simpl; [apply rowwise_refl|].
  eapply rowwise_trans; [apply Hf|apply IH].
Qed.

Lemma rowwise_preprocess df : rowwise df (preprocess df).
Proof.
  unfold preprocess.
  eapply rowwise_trans; [apply (rowwise_foldl impute_median), rowwise_impute_median|].
  eapply rowwise_trans; [apply (rowwise_foldl canonicalize), rowwise_canonicalize|].
  eapply rowwise_trans.
  { apply (rowwise_foldl add_consumption_rank). intros. apply rowwise_add_rank. }
  case_match; [apply rowwise_add_rank|apply rowwise_refl].
Qed.

(** *** What each step does to a column *)

Lemma columns_impute_median df c : columns (impute_median df c) = columns df.
Proof.
  unfold impute_median. case_match eqn:H; [|done].
  apply andb_true_iff in H as [H _]. by rewrite columns_setitem, H.
Qed.

Lemma column_impute_median_ne df c col :
  c ≠ col → column (impute_median df c) col = column df col.
Proof.
  intros Hne. unfold impute_median. case_match; [|done].
  rewrite fillna_column. by apply column_setitem_ne.
Qed.

Lemma column_impute_median_eq df col :
  has_column df col = true → is_numeric_dtype (column df col) = true →
  column (impute_median df col) col = fillna (median (column df col)) (column df col).
Proof.
  intros Hc Hn. unfold impute_median. rewrite Hc, Hn. simpl.
  rewrite fillna_column. apply column_setitem_eq.
Qed.

Lemma columns_foldl_impute_median l : ∀ df,
  columns (foldl impute_median df l) = columns df.
Proof.
  induction l as [|c l IH]; intros df; simpl; [done|].
  by rewrite IH, columns_impute_median.
Qed.

Lemma column_foldl_impute_median_notin l col : ∀ df,
  col ∉ l → column (foldl impute_median df l) col = column df col.
Proof.
  induction l as [|c l IH]; intros df Hcol; simpl; [done|].
  apply not_elem_of_cons in Hcol as [Hne Hcol].
  rewrite IH by done. by apply column_impute_median_ne.
Qed.

Lemma column_foldl_impute_median_in l col : ∀ df,
  NoDup l → col ∈ l →
  has_column df col = true → is_numeric_dtype (column df col) = true →
  column (foldl impute_median df l) col
  = fillna (median (column df col)) (column df col).
Proof.
  induction l as [|c l IH]; intros df Hnd Hcol Hc Hn; simpl.
  { by apply elem_of_nil in Hcol. }
  apply NoDup_cons in Hnd as [Hcl Hnd].
  destruct (decide (c = col)) as [->|Hne].
  - rewrite column_foldl_impute_median_notin by done.
    by apply column_impute_median_eq.
  - apply elem_of_cons in Hcol as [->|Hcol]; [done|].
    rewrite IH; try done.
    + by rewrite column_impute_median_ne.
    + unfold has_column. by rewrite columns_impute_median.
    + by rewrite column_impute_median_ne.
Qed.

Lemma NoDup_NUMERIC_COLUMNS : NoDup NUMERIC_COLUMNS.
Proof. apply (bool_decide_unpack _). by vm_compute. Qed.

Lemma column_canonicalize df c col :
  is_numeric_dtype (column df col) = true →
  column (canonicalize df c) col = column df col.
Proof.
  intros Hn. unfold canonicalize, is_string_dtype.
  destruct (decide (c = col)) as [->|Hne].
  - by rewrite Hn.
  - case_match; [|done]. rewrite canonical_column. by apply column_setitem_ne.
Qed.

Lemma column_foldl_canonicalize l col : ∀ df,
  is_numeric_dtype (column df col) = true →
  column (foldl canonicalize df l) col = column df col.
Proof.
  induction l as [|c l IH]; intros df Hn; simpl; [done|].
  rewrite IH; rewrite column_canonicalize; done.
Qed.

Lemma columns_canonicalize df c :
  c ∈ columns df → columns (canonicalize df c) = columns df.
Proof.
  intros Hc. unfold canonicalize. case_match; [|done].
  rewrite columns_setitem. by rewrite (proj2 (has_column_true df c)).
Qed.

Lemma columns_foldl_canonicalize l : ∀ df,
  l ⊆ columns df → columns (foldl canonicalize df l) = columns df.
Proof.
  induction l as [|c l IH]; intros df Hl; simpl; [done|].
  assert (columns (canonicalize df c) = columns df) as Hc.
  { apply columns_canonicalize, Hl. by left. }
  rewrite IH; [done|]. rewrite Hc. intros x Hx. apply Hl. by right.
Qed.

Lemma column_add_rank ranking src dst df col :
  dst ≠ col → column (add_rank ranking src dst df) col = column df col.
Proof.
  intros Hne. unfold add_rank. rewrite rank_column. by apply column_setitem_ne.
Qed.

(** A rank column has an underscore in its label. *)
Lemma contains_underscore_Rank c : Str.contains "_" (c ++ "_Rank") = true.
Proof.
  induction c as [|a c IH]; [done|].
  change (String a c ++ "_Rank") with (String a (c ++ "_Rank")).
  cbn [Str.contains]. rewrite IH. apply orb_true_r.
Qed.

Lemma Rank_label_ne c col : Str.contains "_" col = false → c ++ "_Rank" ≠ col.
Proof. intros Hcol <-. by rewrite contains_underscore_Rank in Hcol. Qed.

Lemma column_foldl_add_consumption_rank l col : ∀ df,
  Str.contains "_" col = false →
  column (foldl add_consumption_rank df l) col = column df col.
Proof.
  induction l as [|c l IH]; intros df Hcol; simpl; [done|].
  rewrite IH by done. by apply column_add_rank, Rank_label_ne.
Qed.

(** *** The median *)

Lemma middle_not_Str l t : middle l ≠ Str t.
Proof. unfold middle. repeat case_match; done. Qed.

Lemma middle_nonempty l : l ≠ [] → ∃ q, middle l = Num q.
Proof.
  intros Hl. unfold middle.
  assert (0 < length l)%nat as Hlen by (destruct l; [done|simpl; lia]).
  destruct (Nat.even (length l)) eqn:He.
  - apply Nat.even_spec in He as [k Hk].
    assert (length l `div` 2 = k)%nat as Hd by (rewrite Hk; by rewrite Nat.mul_comm, Nat.div_mul).
    rewrite Hd.
    destruct (lookup_lt_is_Some_2 l (k - 1)%nat) as [a ->]; [lia|].
    destruct (lookup_lt_is_Some_2 l k) as [b ->]; [lia|]. eauto.
  - destruct (lookup_lt_is_Some_2 l (length l `div` 2)%nat) as [a ->]; [|eauto].
    apply Nat.div_lt; lia.
Qed.

Lemma merge_sort_Qcle_perm (l1 l2 : list Qc) :
  l1 ≡ₚ l2 → merge_sort Qcle l1 = merge_sort Qcle l2.
Proof.
  intros Hp. apply (Sorted_unique Qcle); [apply Sorted_merge_sort, _..|].
  by rewrite !merge_sort_Permutation.
Qed.

Lemma median_perm (s1 s2 : Series) : s1 ≡ₚ s2 → median s1 = median s2.
Proof.
  intros Hp. unfold median, numbers. f_equal. apply merge_sort_Qcle_perm.
  by rewrite Hp.
Qed.

Lemma median_not_Str s t : median s ≠ Str t.
Proof. apply middle_not_Str. Qed.

Lemma median_Num s : numbers s ≠ [] → ∃ q, median s = Num q.
Proof.
  intros Hs. apply middle_nonempty. intros Hnil. apply Hs.
  apply Permutation_nil_r. rewrite <-Hnil. by rewrite merge_sort_Permutation.
Qed.

Lemma is_numeric_dtype_fillna v s :
  is_Str v = false → is_numeric_dtype s = true → is_numeric_dtype (fillna v s) = true.
Proof.
  intros Hv. unfold is_numeric_dtype, fillna.
  induction s as [|c s IH]; [done|]. cbn [fmap list_fmap forallb].
  intros [Hc Hs]%andb_true_iff. apply andb_true_iff. split; [|by apply IH].
  destruct c; simpl in *; [by rewrite Hv|done|done].
Qed.

Lemma fillna_Num q s :
  is_numeric_dtype s = true → ∀ c, c ∈ fillna (Num q) s → ∃ q', c = Num q'.
Proof.
  unfold is_numeric_dtype, fillna.
  induction s as [|c0 s IH]; cbn [fmap list_fmap forallb].
  - intros _ c Hc. by apply elem_of_nil in Hc.
  - intros [Hc0 Hs]%andb_true_iff c [->|Hc]%elem_of_cons; [|by apply IH].
    destruct c0; simpl in *; eauto. done.
Qed.

(** *** The rank columns *)

Lemma has_column_setitem df c s x :
  has_column (setitem df c s) x = has_column df x || bool_decide (c = x).
Proof.
  unfold has_column at 1. rewrite columns_setitem.
  destruct (has_column df c) eqn:Hc; unfold has_column in *.
  - apply bool_decide_eq_true in Hc.
    destruct (decide (c = x)) as [->|Hne].
    + rewrite !bool_decide_eq_true_2; done.
    + rewrite (bool_decide_eq_false_2 (c = x)) by done. by rewrite orb_false_r.
  - apply bool_decide_eq_false in Hc.
    rewrite <-bool_decide_or. apply bool_decide_ext.
    rewrite elem_of_app, list_elem_of_singleton. split; intros [?|?]; auto.
Qed.

Lemma has_column_add_rank ranking src dst df x :
  has_column (add_rank ranking src dst df) x = has_column df x || bool_decide (dst = x).
Proof. apply has_column_setitem. Qed.

Lemma rank_column_add_rank_new ranking src dst df :
  good_ranking ranking → rank_column_of (add_rank ranking src dst df) dst.
Proof.
  intros Hg. split.
  - rewrite has_column_add_rank, bool_decide_eq_true_2 by done. apply orb_true_r.
  - intros r. unfold add_rank. rewrite rank_column, rows_setitem_fmap.
    intros (r0 & -> & _)%list_elem_of_fmap. eexists. rewrite lookup_insert_eq.
    split; [done|]. by apply rank_of_cell_range.
Qed.

Lemma rank_column_add_rank_keep ranking src dst df col :
  good_ranking ranking → rank_column_of df col →
  rank_column_of (add_rank ranking src dst df) col.
Proof.
  intros Hg [Hc Hr]. destruct (decide (dst = col)) as [->|Hne].
  { by apply rank_column_add_rank_new. }
  split.
  - rewrite has_column_add_rank, Hc. done.
  - intros r. unfold add_rank. rewrite rank_column, rows_setitem_fmap.
    intros (r0 & -> & Hr0)%list_elem_of_fmap. rewrite lookup_insert_ne by done.
    by apply Hr.
Qed.

Lemma rank_column_foldl_keep l col : ∀ df,
  rank_column_of df col → rank_column_of (foldl add_consumption_rank df l) col.
Proof.
  induction l as [|c l IH]; intros df H; simpl; [done|].
  apply IH, rank_column_add_rank_keep; [apply good_EATING_HABIT_RANKING|done].
Qed.

Lemma rank_column_foldl_new l c : ∀ df,
  c ∈ l → rank_column_of (foldl add_consumption_rank df l) (c ++ "_Rank").
Proof.
  induction l as [|c' l IH]; intros df Hc; simpl.
  { by apply elem_of_nil in Hc. }
  apply elem_of_cons in Hc as [->|Hc]; [|by apply IH].
  apply rank_column_foldl_keep, rank_column_add_rank_new, good_EATING_HABIT_RANKING.
Qed.

Lemma has_column_foldl_add_consumption_rank l x : ∀ df,
  Str.contains "_" x = false →
  has_column (foldl add_consumption_rank df l) x = has_column df x.
Proof.
  induction l as [|c l IH]; intros df Hx; simpl; [done|].
  rewrite IH by done. unfold add_consumption_rank. rewrite has_column_add_rank.
  rewrite bool_decide_eq_false_2; [apply orb_false_r|by apply Rank_label_ne].
Qed.

Lemma columns_preprocess_steps df :
  columns (foldl canonicalize (foldl impute_median df NUMERIC_COLUMNS)
             (columns (foldl impute_median df NUMERIC_COLUMNS))) = columns df.
Proof.
  rewrite columns_foldl_canonicalize by done. apply columns_foldl_impute_median.
Qed.

Lemma numeric_column_no_underscore col :
  col ∈ NUMERIC_COLUMNS → Str.contains "_" col = false.
Proof.
  unfold NUMERIC_COLUMNS. rewrite !elem_of_cons, elem_of_nil.
  intros [->|[->|[->|[->|[->|[]]]]]]; reflexivity.
Qed.

(** C8, as the code has it.  For each of the five measure columns that the
    raw data has with a numeric dtype, the Normalizer replaces every missing
    value by the median of the values of that column that are not missing in
    the raw data, and keeps the other values; the median is the same for any
    order of the rows; when the column has at least one value, no value is
    missing after the normalization. *)
Theorem median_imputation (df : DataFrame) (col : string) :
  col ∈ NUMERIC_COLUMNS →
  has_column df col = true →
  is_numeric_dtype (column df col) = true →
  column (preprocess df) col = fillna (median (column df col)) (column df col) ∧
  (∀ i c, column df col !! i = Some c →
          column (preprocess df) col !! i
          = Some (if isna c then median (column df col) else c)) ∧
  (∀ df', rows df' ≡ₚ rows df → median (column df' col) = median (column df col)) ∧
  (numbers (column df col) ≠ [] →
   ∀ c, c ∈ column (preprocess df) col → ∃ q, c = Num q).
Proof.
  intros Hcol Hc Hn.
  assert (Str.contains "_" col = false) as Hu by by apply numeric_column_no_underscore.
  assert (column (preprocess df) col
          = fillna (median (column df col)) (column df col)) as Heq.
  { unfold preprocess.
    set (df1 := foldl impute_median df NUMERIC_COLUMNS).
    set (df2 := foldl canonicalize df1 (columns df1)).
    set (df3 := foldl add_consumption_rank df2 _).
    assert (column df1 col = fillna (median (column df col)) (column df col)) as H1.
    { apply column_foldl_impute_median_in; auto using NoDup_NUMERIC_COLUMNS. }
    assert (column df3 col = column df1 col) as H3.
    { unfold df3. rewrite column_foldl_add_consumption_rank by done.
      apply column_foldl_canonicalize. rewrite H1.
      apply is_numeric_dtype_fillna; [|done].
      pose proof (median_not_Str (column df col)) as Hm.
      destruct (median (column df col)) as [| |t]; [done..|]. by destruct (Hm t). }
    rewrite <-H1, <-H3. case_match; [|done].
    apply column_add_rank. intros <-. done. }
  split_and!.
  - done.
  - intros i c Hi. rewrite Heq. unfold fillna. by rewrite list_lookup_fmap, Hi.
  - intros df' Hp. apply median_perm. unfold column. by rewrite Hp.
  - intros Hnum c. rewrite Heq. destruct (median_Num _ Hnum) as [q ->].
    by apply fillna_Num.
Qed.

(** The three steps before the rank columns keep the column labels. *)
Lemma has_column_preprocess df x :
  Str.contains "_" x = false →
  has_column (preprocess df) x = has_column df x.
Proof.
  intros Hx. pose proof (columns_preprocess_steps df) as Hcols.
  assert ("Activity_Rank" ≠ x) as Hne by (by intros <-).
  unfold preprocess. case_match.
  - rewrite has_column_add_rank, has_column_foldl_add_consumption_rank by done.
    rewrite (bool_decide_eq_false_2 ("Activity_Rank" = x)) by done.
    rewrite orb_false_r. unfold has_column at 1. by rewrite Hcols.
  - rewrite has_column_foldl_add_consumption_rank by done.
    unfold has_column at 1. by rewrite Hcols.
Qed.

Lemma preprocess_consumption_rank df c :
  c ∈ columns df → Str.contains "Consumption Rate" c = true →
  rank_column_of (preprocess df) (c ++ "_Rank").
Proof.
  intros Hc Hcons. pose proof (columns_preprocess_steps df) as Hcols.
  unfold preprocess.
  assert (rank_column_of
    (foldl add_consumption_rank
       (foldl canonicalize (foldl impute_median df NUMERIC_COLUMNS)
          (columns (foldl impute_median df NUMERIC_COLUMNS)))
       (List.filter (Str.contains "Consumption Rate")
          (columns (foldl canonicalize (foldl impute_median df NUMERIC_COLUMNS)
             (columns (foldl impute_median df NUMERIC_COLUMNS))))))
    (c ++ "_Rank")) as H.
  { apply rank_column_foldl_new. rewrite Hcols.
    apply list_elem_of_In, filter_In. by rewrite <-list_elem_of_In. }
  case_match; [|done].
  apply rank_column_add_rank_keep; [apply good_ACTIVITY_RANKING|done].
Qed.

Lemma preprocess_activity_rank df :
  has_column df "Physical Activity level" = true →
  rank_column_of (preprocess df) "Activity_Rank".
Proof.
  intros Ha. pose proof (columns_preprocess_steps df) as Hcols.
  unfold preprocess.
  rewrite has_column_foldl_add_consumption_rank by done.
  unfold has_column at 1. rewrite Hcols.
  fold (has_column df "Physical Activity level").
  rewrite Ha. apply rank_column_add_rank_new, good_ACTIVITY_RANKING.
Qed.

Lemma length_rows_preprocess df : length (rows (preprocess df)) = length (rows df).
Proof. destruct (rowwise_preprocess df) as [F ->]. by rewrite length_fmap. Qed.

(** C9, as the code has it.  The Normalizer gives as many records as it
    gets, in the same order, each made from the record at its position; each
    has one added rank column per consumption rate column, and the rank of
    the activity when the raw data has the activity level, every rank an
    integer from 0 to 3.  It adds no BMI category: the result has that
    column exactly when the raw data has it. *)
Theorem normalizer_adds_ranks (df : DataFrame) :
  length (rows (preprocess df)) = length (rows df) ∧
  rowwise df (preprocess df) ∧
  (∀ c, c ∈ columns df → Str.contains "Consumption Rate" c = true →
        rank_column_of (preprocess df) (c ++ "_Rank")) ∧
  (has_column df "Physical Activity level" = true →
   rank_column_of (preprocess df) "Activity_Rank") ∧
  has_column (preprocess df) "BMI Category" = has_column df "BMI Category".
Proof.
  split_and!.
  - apply length_rows_preprocess.
  - apply rowwise_preprocess.
  - apply preprocess_consumption_rank.
  - apply preprocess_activity_rank.
  - by apply has_column_preprocess.
Qed.

Lemma median_imputation_witness :
  "Age" ∈ NUMERIC_COLUMNS ∧
  has_column ages_example "Age" = true ∧
  is_numeric_dtype (column ages_example "Age") = true ∧
  median (column ages_example "Age") = Num (qc 20) ∧
  column (preprocess ages_example) "Age"
    = [Num (qc 30); Num (qc 20); Num (qc 10); Num (qc 20)] ∧
  column (preprocess ages_example) "Age"
    = fillna (median (column ages_example "Age")) (column ages_example "Age").
Proof.
  assert ("Age" ∈ NUMERIC_COLUMNS) as Hage by (by apply (bool_decide_unpack _)).
  split; [exact Hage|]. split; [reflexivity|]. split; [reflexivity|].
  split; [reflexivity|]. split; [reflexivity|].
  apply (median_imputation ages_example "Age"); [exact Hage|reflexivity..].
Defined.

(** C8, as the specification has it, fails on a column with no value: its
    median is undefined and the missing values stay. *)
Lemma all_missing_stays_missing :
  "Age" ∈ NUMERIC_COLUMNS ∧
  has_column ages_missing_example "Age" = true ∧
  is_numeric_dtype (column ages_missing_example "Age") = true ∧
  median (column ages_missing_example "Age") = NaN ∧
  column (preprocess ages_missing_example) "Age" = [NaN; NaN].
Proof. split_and!; [by apply (bool_decide_unpack _)|by vm_compute..]. Qed.

(** C9, as the specification has it, fails on raw records without a BMI
    category: the normalized records have none either, the Normalizer
    derives no category from the BMI. *)
Lemma no_category_added :
  columns (preprocess raw_without_category)
    = (columns raw_without_category ++
       ["Rice Consumption Rate_Rank"; "Beans Consumption Rate_Rank";
        "Soft drinks Consumption Rate_Rank"; "Snacks Consumption Rate_Rank";
        "Fruits Consumption Rate_Rank"; "Vegetables Consumption Rate_Rank";
        "Activity_Rank"])%list ∧
  has_column (preprocess raw_without_category) "BMI Category" = false ∧
  (λ r, r !! "BMI") <$> rows (preprocess raw_without_category)
    = [Some (Num (qc 31.25))] ∧
  (λ r, r !! "BMI Category") <$> rows (preprocess raw_without_category)
    = [None].
Proof. split_and!; by vm_compute. Qed.

(** *** The rank of a record is the rank of its own answer *)

Lemma length_append (s1 s2 : string) :
  String.length (s1 ++ s2) = (String.length s1 + String.length s2)%nat.
Proof. induction s1 as [|a s1 IH]; simpl; [done|]. by rewrite IH. Qed.

Lemma append_inj_r (s c1 : string) : ∀ c2, c1 ++ s = c2 ++ s → c1 = c2.
Proof.
  induction c1 as [|a c1 IH]; intros [|b c2] H; [done|..].
  - apply (f_equal String.length) in H.
    rewrite !length_append in H. simpl in H. lia.
  - apply (f_equal String.length) in H.
    rewrite !length_append in H. simpl in H. lia.
  - injection H as -> H. f_equal. by apply IH.
Qed.

Lemma rows_add_rank ranking src dst df :
  rows (add_rank ranking src dst df)
  = (λ r, <[dst := Num (Qc_of_Z (rank_of_cell ranking (field src r)))]> r)
      <$> rows df.
Proof. unfold add_rank. rewrite rank_column. apply rows_setitem_fmap. Qed.

Lemma column_add_rank_eq ranking src dst df :
  column (add_rank ranking src dst df) dst
  = (λ c, Num (Qc_of_Z (rank_of_cell ranking c))) <$> column df src.
Proof.
  unfold add_rank. rewrite rank_column, column_setitem_eq.
  unfold column. by rewrite <-list_fmap_compose.
Qed.

Lemma rank_of_own_add_rank_new ranking src dst df :
  src ≠ dst → rank_of_own ranking src dst (add_rank ranking src dst df).
Proof.
  intros Hne r. rewrite rows_add_rank.
  intros (r0 & -> & _)%list_elem_of_fmap.
  rewrite lookup_insert_eq. unfold field. by rewrite lookup_insert_ne.
Qed.

Lemma rank_of_own_add_rank_keep ranking src dst ranking' src' dst' df :
  dst' ≠ src → dst' ≠ dst →
  rank_of_own ranking src dst df →
  rank_of_own ranking src dst (add_rank ranking' src' dst' df).
Proof.
  intros Hs Hd Hown r. rewrite rows_add_rank.
  intros (r0 & -> & Hr0)%list_elem_of_fmap.
  rewrite lookup_insert_ne by done. unfold field.
  rewrite lookup_insert_ne by done. by apply Hown.
Qed.

Lemma rank_of_own_foldl_keep l c : ∀ df,
  (∀ c', c ≠ c' ++ "_Rank") →
  rank_of_own EATING_HABIT_RANKING c (c ++ "_Rank") df →
  rank_of_own EATING_HABIT_RANKING c (c ++ "_Rank")
    (foldl add_consumption_rank df l).
Proof.
  induction l as [|c' l IH]; intros df Hc H; simpl; [done|].
  apply IH; [done|]. unfold add_consumption_rank.
  destruct (decide (c' = c)) as [->|Hne].
  - apply rank_of_own_add_rank_new. apply Hc.
  - apply rank_of_own_add_rank_keep; [by intros <-; eapply Hc| |done].
    intros Heq. by apply append_inj_r in Heq.
Qed.

Lemma rank_of_own_foldl_new l c : ∀ df,
  (∀ c', c ≠ c' ++ "_Rank") → c ∈ l →
  rank_of_own EATING_HABIT_RANKING c (c ++ "_Rank")
    (foldl add_consumption_rank df l).
Proof.
  induction l as [|c' l IH]; intros df Hc Hin; simpl.
  { by apply elem_of_nil in Hin. }
  destruct (decide (c' = c)) as [->|Hne].
  - apply rank_of_own_foldl_keep; [done|].
    apply rank_of_own_add_rank_new, Hc.
  - apply elem_of_cons in Hin as [->|Hin]; [done|]. by apply IH.
Qed.

Lemma preprocess_consumption_rank_of_own df c :
  c ∈ columns df → Str.contains "Consumption Rate" c = true →
  (∀ c', c ≠ c' ++ "_Rank") →
  rank_of_own EATING_HABIT_RANKING c (c ++ "_Rank") (preprocess df).
Proof.
  intros Hin Hcons Hc. pose proof (columns_preprocess_steps df) as Hcols.
  unfold preprocess.
  assert (rank_of_own EATING_HABIT_RANKING c (c ++ "_Rank")
    (foldl add_consumption_rank
       (foldl canonicalize (foldl impute_median df NUMERIC_COLUMNS)
          (columns (foldl impute_median df NUMERIC_COLUMNS)))
       (List.filter (Str.contains "Consumption Rate")
          (columns (foldl canonicalize (foldl impute_median df NUMERIC_COLUMNS)
             (columns (foldl impute_median df NUMERIC_COLUMNS))))))) as H.
  { apply rank_of_own_foldl_new; [done|]. rewrite Hcols.
    apply list_elem_of_In, filter_In. by rewrite <-list_elem_of_In. }
  case_match; [|done].
  apply rank_of_own_add_rank_keep; [by intros <-; eapply (Hc "Activity")| |done].
  intros Heq. apply (append_inj_r "_Rank" "Activity") in Heq. by subst c.
Qed.

Lemma preprocess_activity_rank_of_own df :
  has_column df "Physical Activity level" = true →
  rank_of_own ACTIVITY_RANKING "Physical Activity level" "Activity_Rank"
    (preprocess df).
Proof.
  intros Ha. pose proof (columns_preprocess_steps df) as Hcols.
  unfold preprocess.
  rewrite has_column_foldl_add_consumption_rank by done.
  unfold has_column at 1. rewrite Hcols.
  fold (has_column df "Physical Activity level"). rewrite Ha.
  by apply rank_of_own_add_rank_new.
Qed.



(** ** Matching on a normalized dataset *)

Lemma ranked_rank_field df col r :
  rank_column_of df col → r ∈ rows df → is_Some (rank_field r col).
Proof.
  intros [_ Hr] Hin. destruct (Hr r Hin) as (k & Hk & _).
  unfold rank_field. by rewrite Hk.
Qed.

(** When the raw data has the activity level and the six consumption
    rates, every normalized record has its seven ranks. *)
Lemma preprocess_row_ranks raw r :
  MATCH_COLUMNS ⊆ columns raw →
  r ∈ rows (preprocess raw) → is_Some (row_ranks r).
Proof.
  intros Hcols Hr.
  assert (∀ c, bool_decide (c ∈ MATCH_COLUMNS) = true → c ∈ columns raw) as Hin.
  { intros c Hc%bool_decide_eq_true. by apply Hcols. }
  assert (∀ c, bool_decide (c ∈ MATCH_COLUMNS) = true →
               Str.contains "Consumption Rate" c = true →
               is_Some (rank_field r (c ++ "_Rank"))) as Hrank.
  { intros c Hc Hcons. apply (ranked_rank_field (preprocess raw)); [|done].
    apply preprocess_consumption_rank; auto. }
  assert (is_Some (rank_field r "Activity_Rank")) as [a Ha].
  { apply (ranked_rank_field (preprocess raw)); [|done].
    apply preprocess_activity_rank, has_column_true, Hin. reflexivity. }
  destruct (Hrank "Rice Consumption Rate") as [ri Hri]; [reflexivity..|].
  destruct (Hrank "Beans Consumption Rate") as [be Hbe]; [reflexivity..|].
  destruct (Hrank "Soft drinks Consumption Rate") as [sd Hsd]; [reflexivity..|].
  destruct (Hrank "Snacks Consumption Rate") as [sn Hsn]; [reflexivity..|].
  destruct (Hrank "Fruits Consumption Rate") as [fr Hfr]; [reflexivity..|].
  destruct (Hrank "Vegetables Consumption Rate") as [ve Hve]; [reflexivity..|].
  change (_ ++ _) with "Rice Consumption Rate_Rank" in Hri.
  change (_ ++ _) with "Beans Consumption Rate_Rank" in Hbe.
  change (_ ++ _) with "Soft drinks Consumption Rate_Rank" in Hsd.
  change (_ ++ _) with "Snacks Consumption Rate_Rank" in Hsn.
  change (_ ++ _) with "Fruits Consumption Rate_Rank" in Hfr.
  change (_ ++ _) with "Vegetables Consumption Rate_Rank" in Hve.
  unfold row_ranks. rewrite Ha, Hri, Hbe, Hsd, Hsn, Hfr, Hve. by eexists.
Qed.

(** X1. On the normalization of raw data with the gender, the BMI category,
    the activity level and the six consumption rates, [find_best_match]
    raises nothing: it returns [None] when no record matches, and otherwise
    the candidate at the first minimum of the weighted distances. *)
Corollary find_best_match_preprocessed (raw : DataFrame) (u : UserInputs) :
  let df := preprocess raw in
  let candidates :=
    filter (matches (gender u) (categorize_bmi (bmi u))) (rows df) in
  "Gender" ∈ columns raw → "BMI Category" ∈ columns raw →
  MATCH_COLUMNS ⊆ columns raw →
  (candidates = [] ∧ find_best_match df u = Ok None) ∨
  (∃ cs i r,
     Forall2 (λ r c, row_ranks r = Some c) candidates cs ∧
     first_minimum ((λ c, weighted_distance c (user_ranks u)) <$> cs) i ∧
     candidates !! i = Some r ∧
     find_best_match df u = Ok (Some r)).
Proof.
  intros df candidates Hg Hc Hm.
  assert (has_column df "Gender" = true) as Hg'.
  { unfold df. rewrite has_column_preprocess by done. by apply has_column_true. }
  assert (has_column df "BMI Category" = true) as Hc'.
  { unfold df. rewrite has_column_preprocess by done. by apply has_column_true. }
  destruct (decide (candidates = [])) as [Hnil|Hne].
  - left. split; [done|]. unfold find_best_match.
    rewrite filter_candidates_ok by done. cbn [mbind result_bind].
    fold candidates. by rewrite Hnil.
  - right.
    assert (is_Some (mapM row_ranks candidates)) as [cs Hcs].
    { apply mapM_is_Some, Forall_forall. intros r [_ Hr]%list_elem_of_filter.
      by apply (preprocess_row_ranks raw). }
    apply mapM_Some in Hcs.
    destruct (find_best_match_first_minimum df u cs Hg' Hc' Hcs)
      as (i & r & Hi & Hr & Hres).
    { intros ->. apply Forall2_nil_inv_r in Hcs. done. }
    by exists cs, i, r.
Qed.

Lemma find_best_match_preprocessed_witness :
  "Gender" ∈ columns raw_example ∧
  "BMI Category" ∈ columns raw_example ∧
  MATCH_COLUMNS ⊆ columns raw_example ∧
  match find_best_match (preprocess raw_example) user_example with
  | Ok (Some r) => r !! "Dietary advice given"
  | _ => None
  end = Some (Str "INCREASE FIBER") ∧
  let df := preprocess raw_example in
  let candidates :=
    filter (matches (gender user_example)
              (categorize_bmi (bmi user_example))) (rows df) in
  (candidates = [] ∧ find_best_match df user_example = Ok None) ∨
  (∃ cs i r,
     Forall2 (λ r c, row_ranks r = Some c) candidates cs ∧
     first_minimum
       ((λ c, weighted_distance c (user_ranks user_example)) <$> cs) i ∧
     candidates !! i = Some r ∧
     find_best_match df user_example = Ok (Some r)).
Proof.
  assert ("Gender" ∈ columns raw_example) as Hg by (by apply (bool_decide_unpack _)).
  assert ("BMI Category" ∈ columns raw_example) as Hc
    by (by apply (bool_decide_unpack _)).
  assert (MATCH_COLUMNS ⊆ columns raw_example) as Hm.
  { intros x Hx. unfold MATCH_COLUMNS in Hx.
    rewrite !elem_of_cons, elem_of_nil in Hx.
    destruct Hx as [->|[->|[->|[->|[->|[->|[->|[]]]]]]]];
      by apply (bool_decide_unpack _). }
  split; [exact Hg|]. split; [exact Hc|]. split; [exact Hm|].
  split; [by vm_compute|].
  exact (find_best_match_preprocessed raw_example user_example Hg Hc Hm).
Defined.

(** ** What [find_best_match] returns and raises *)

Lemma filter_candidates_inv df gender category candidates :
  filter_candidates df gender category = Ok candidates →
  has_column df "Gender" = true ∧ has_column df "BMI Category" = true ∧
  candidates = {| columns := columns df;
                  rows := filter (matches gender category) (rows df) |}.
Proof.
  intros H.
  destruct (has_column df "Gender") eqn:Hg.
  - destruct (has_column df "BMI Category") eqn:Hc.
    + rewrite filter_candidates_ok in H by done. by injection H as <-.
    + unfold filter_candidates, getitem in H. by rewrite Hg, Hc in H.
  - unfold filter_candidates, getitem in H. by rewrite Hg in H.
Qed.

Lemma filter_candidates_Raise df gender category e :
  filter_candidates df gender category = Raise e →
  (has_column df "Gender" = false ∧ e = KeyError "Gender") ∨
  (has_column df "Gender" = true ∧ has_column df "BMI Category" = false ∧
   e = KeyError "BMI Category").
Proof.
  intros H. unfold filter_candidates, getitem in H.
  destruct (has_column df "Gender") eqn:Hg; cbn [mbind result_bind] in H.
  - destruct (has_column df "BMI Category") eqn:Hc; cbn [mbind result_bind] in H.
    + done.
    + right. by injection H as <-.
  - left. by injection H as <-.
Qed.

Lemma mapM_result_Ok {A B} (f : A → result B) (l : list A) (k : list B) :
  mapM f l = Ok k → Forall2 (λ a b, f a = Ok b) l k.
Proof.
  revert k. induction l as [|a l IH]; intros k Hk.
  - injection Hk as <-. constructor.
  - cbn [mapM] in Hk. destruct (f a) as [b|e] eqn:Hfa; [|done].
    cbn [mbind result_bind] in Hk.
    destruct (mapM f l) as [k'|e] eqn:Hl; [|done].
    injection Hk as <-. constructor; [done|by apply IH].
Qed.

Lemma mapM_result_Raise {A B} (f : A → result B) (l : list A) e :
  mapM f l = Raise e → ∃ a, a ∈ l ∧ f a = Raise e.
Proof.
  induction l as [|a l IH]; intros H; [done|].
  cbn [mapM] in H. destruct (f a) as [b|e'] eqn:Hfa.
  - cbn [mbind result_bind] in H.
    destruct (mapM f l) as [k'|e'] eqn:Hl; [done|].
    injection H as ->. destruct IH as (a' & Ha' & Hfa'); [done|].
    exists a'. split; [by right|done].
  - injection H as ->. exists a. split; [by left|done].
Qed.

(** The position [np.argmin] gives is one of the sequence. *)
Lemma argmin_loop_lt l : ∀ mp mi i,
  (mi < i)%nat → (Numpy.argmin_loop mp mi i l < i + length l)%nat.
Proof.
  induction l as [|x l IH]; intros mp mi i Hmi; cbn [Numpy.argmin_loop length].
  - lia.
  - destruct (Numpy.fge x mp).
    + specialize (IH mp mi (S i)). lia.
    + destruct x as [|q]; [lia|]. specialize (IH (fnum q) i (S i)). lia.
Qed.

Lemma argmin_lt l :
  l ≠ [] → ∃ i, Numpy.argmin l = Ok i ∧ (i < length l)%nat.
Proof.
  destruct l as [|[|q] l]; [done|..]; intros _; cbn [Numpy.argmin length].
  - exists 0%nat. split; [done|lia].
  - eexists. split; [done|]. pose proof (argmin_loop_lt l (fnum q) 0 1). lia.
Qed.

(** With one score per candidate, the end of [find_best_match] raises
    nothing. *)
Lemma select_best_Ok candidates scores :
  length scores = length (rows candidates) →
  (scores = [] ∧ select_best candidates scores = Ok None) ∨
  (∃ i r, rows candidates !! i = Some r ∧
          select_best candidates scores = Ok (Some r)).
Proof.
  intros Hlen. unfold select_best. case_bool_decide as Hs; [by left|right].
  destruct (argmin_lt scores Hs) as (i & -> & Hi). cbn [mbind result_bind].
  destruct (lookup_lt_is_Some_2 (rows candidates) i) as [r Hr]; [lia|].
  exists i, r. split; [done|]. unfold iloc. by rewrite Hr.
Qed.

Lemma rank_distance_Raise row col k e :
  rank_distance row col k = Raise e →
  (row !! col = None ∧ e = KeyError col) ∨
  ((∃ t, row !! col = Some (Str t)) ∧ e = TypeError).
Proof.
  unfold rank_distance, row_getitem.
  destruct (row !! col) as [[| |t]|]; cbn [mbind result_bind abs_diff]; intros H;
    try done.
  - right. split; [by eexists|]. by injection H as <-.
  - left. split; [done|]. by injection H as <-.
Qed.

Lemma score_row_Raise u k row e :
  score_row u k row = Raise e →
  e = TypeError ∨ ∃ col, col ∈ RANK_COLUMNS ∧ e = KeyError col.
Proof.
  unfold score_row. intros H.
  repeat match type of H with
  | context [rank_distance row ?col ?k] =>
      let Hd := fresh "Hd" in
      destruct (rank_distance row col k) as [?|?] eqn:Hd;
      cbn [mbind result_bind] in H;
      [|injection H as ->; apply rank_distance_Raise in Hd as [[_ ->]|[_ ->]];
        [right; eexists; split; [|done]; by apply (bool_decide_unpack _)
        |by left]]
  end.
  done.
Qed.

(** X2. A record that [find_best_match] returns is a record of the dataset
    with the gender of the user and the category of the user's BMI, also
    when scores are NaN: no record is made up and none of another gender or
    category is returned. *)
Theorem find_best_match_returns_candidate (df : DataFrame) (u : UserInputs)
    (r : Row) :
  find_best_match df u = Ok (Some r) →
  r ∈ rows df ∧ matches (gender u) (categorize_bmi (bmi u)) r.
Proof.
  unfold find_best_match. intros H.
  destruct (filter_candidates df (gender u) (categorize_bmi (bmi u)))
    as [candidates|e] eqn:Hf; [|done].
  apply filter_candidates_inv in Hf as (_ & _ & ->).
  cbn [mbind result_bind] in H.
  destruct (is_empty _); [done|]. cbn [rows] in H.
  destruct (mapM _ _) as [scores|e] eqn:Hs; [|done].
  cbn [mbind result_bind] in H.
  apply mapM_result_Ok, Forall2_length in Hs.
  destruct (select_best_Ok
              {| columns := columns df;
                 rows := filter (matches (gender u) (categorize_bmi (bmi u)))
                           (rows df) |} scores)
    as [[_ Hsel]|(i & r' & Hr' & Hsel)]; [done|congruence|].
  rewrite Hsel in H. injection H as <-.
  apply list_elem_of_lookup_2, list_elem_of_filter in Hr'. tauto.
Qed.

Lemma find_best_match_returns_candidate_witness :
  find_best_match ranked_frame_example user_example = Ok (Some ranked_row_example) ∧
  ranked_row_example ∈ rows ranked_frame_example ∧
  matches (gender user_example) (categorize_bmi (bmi user_example))
    ranked_row_example.
Proof.
  assert (find_best_match ranked_frame_example user_example
          = Ok (Some ranked_row_example)) as H
    by (vm_cast_no_check (@eq_refl _ (Ok (Some ranked_row_example)))).
  split; [exact H|].
  exact (find_best_match_returns_candidate ranked_frame_example user_example
           ranked_row_example H).
Defined.

(** X3. An exception that leaves [find_best_match] is a [TypeError] (a rank
    field that is a text) or a [KeyError] for one of the nine column labels
    it reads; [np.argmin] and [iloc] never fail there, so no [ValueError]
    and no [IndexError]. *)
Theorem find_best_match_raises (df : DataFrame) (u : UserInputs) (e : exn) :
  find_best_match df u = Raise e →
  e = TypeError ∨
  ∃ col, col ∈ "Gender" :: "BMI Category" :: RANK_COLUMNS ∧ e = KeyError col.
Proof.
  unfold find_best_match. intros H.
  destruct (filter_candidates df (gender u) (categorize_bmi (bmi u)))
    as [candidates|e'] eqn:Hf.
  - apply filter_candidates_inv in Hf as (_ & _ & ->).
    cbn [mbind result_bind] in H.
    destruct (is_empty _); [done|]. cbn [rows] in H.
    destruct (mapM _ _) as [scores|e'] eqn:Hs; cbn [mbind result_bind] in H.
    + apply mapM_result_Ok, Forall2_length in Hs.
      destruct (select_best_Ok
                  {| columns := columns df;
                     rows := filter (matches (gender u) (categorize_bmi (bmi u)))
                               (rows df) |} scores)
        as [[_ Hsel]|(i & r' & Hr' & Hsel)]; [done|congruence..].
    + injection H as ->. apply mapM_result_Raise in Hs as (row & _ & Hrow).
      apply score_row_Raise in Hrow as [->|(col & Hcol & ->)]; [by left|right].
      exists col. split; [|done]. by do 2 right.
  - cbn [mbind result_bind] in H. injection H as ->.
    apply filter_candidates_Raise in Hf as [[_ ->]|(_ & _ & ->)]; right.
    + exists "Gender". split; [by left|done].
    + exists "BMI Category". split; [right; by left|done].
Qed.

Lemma find_best_match_raises_witness :
  find_best_match four_candidates user_example = Raise (KeyError "Gender") ∧
  (KeyError "Gender" = TypeError ∨
   ∃ col, col ∈ "Gender" :: "BMI Category" :: RANK_COLUMNS ∧
          KeyError "Gender" = KeyError col).
Proof.
  assert (find_best_match four_candidates user_example
          = Raise (KeyError "Gender")) as H by reflexivity.
  split; [exact H|].
  exact (find_best_match_raises four_candidates user_example _ H).
Defined.

Lemma rank_distance_Ok row col k :
  (∃ d, rank_distance row col k = Ok d) ↔ usable_rank row col.
Proof.
  unfold rank_distance, row_getitem, usable_rank.
  destruct (row !! col) as [[| |t]|]; cbn [mbind result_bind abs_diff]; split;
    try (intros [? ?]; done); try (intros (? & ? & ?); simplify_eq/=; done);
    eauto.
Qed.

Lemma score_row_Ok u k row :
  (∃ s, score_row u k row = Ok s) ↔ ∀ col, col ∈ RANK_COLUMNS → usable_rank row col.
Proof.
  split.
  - intros [s H] col Hcol. unfold score_row in H.
    repeat match type of H with
    | context [rank_distance row ?c ?k] =>
        let Hd := fresh "Hd" in
        destruct (rank_distance row c k) as [?|?] eqn:Hd;
        cbn [mbind result_bind] in H; [|done];
        apply (λ H, proj1 (rank_distance_Ok _ _ _) (ex_intro _ _ H)) in Hd
    end.
    unfold RANK_COLUMNS in Hcol. rewrite !elem_of_cons, elem_of_nil in Hcol.
    destruct Hcol as [->|[->|[->|[->|[->|[->|[->|[]]]]]]]]; done.
  - intros Hall. unfold score_row.
    repeat match goal with
    | |- context [rank_distance row ?c ?k] =>
        let Hd := fresh "Hd" in
        destruct (proj2 (rank_distance_Ok row c k)) as [? Hd];
        [apply Hall; by apply (bool_decide_unpack _)|];
        rewrite Hd; cbn [mbind result_bind]
    end.
    by eexists.
Qed.

Lemma mapM_result_is_Ok {A B} (f : A → result B) (l : list A) :
  (∃ k, mapM f l = Ok k) ↔ ∀ a, a ∈ l → ∃ b, f a = Ok b.
Proof.
  split.
  - intros [k Hk%mapM_result_Ok] a Ha.
    apply list_elem_of_lookup in Ha as [i Hi].
    destruct (Forall2_lookup_l _ _ _ _ _ Hk Hi) as (b & _ & Hb). eauto.
  - induction l as [|a l IH]; intros H; [by eexists|].
    destruct (H a) as [b Hb]; [by left|].
    destruct IH as [k Hk]; [intros a' Ha'; apply H; by right|].
    exists (b :: k). cbn [mapM]. rewrite Hb. cbn [mbind result_bind].
    by rewrite Hk.
Qed.

(** X4. [find_best_match] returns (a record or [None]) exactly when the
    dataset has the gender and BMI category columns and every candidate has
    each of the seven rank fields, as a number or NaN. *)
Theorem find_best_match_succeeds_iff (df : DataFrame) (u : UserInputs) :
  (∃ res, find_best_match df u = Ok res) ↔
  has_column df "Gender" = true ∧ has_column df "BMI Category" = true ∧
  ∀ r col, r ∈ rows df → matches (gender u) (categorize_bmi (bmi u)) r →
           col ∈ RANK_COLUMNS → usable_rank r col.
Proof.
  unfold find_best_match. split.
  - intros [res H].
    destruct (filter_candidates df (gender u) (categorize_bmi (bmi u)))
      as [candidates|e] eqn:Hf; [|done].
    apply filter_candidates_inv in Hf as (Hg & Hc & ->).
    split; [done|]. split; [done|]. intros r col Hr Hm Hcol.
    cbn [mbind result_bind] in H.
    destruct (is_empty _) eqn:He.
    { unfold is_empty in He. cbn [rows columns] in He.
      apply orb_true_iff in He as [He|He]; apply bool_decide_eq_true in He.
      - assert (r ∈ filter (matches (gender u) (categorize_bmi (bmi u))) (rows df))
          as Hin by by apply list_elem_of_filter.
        rewrite He in Hin. by apply elem_of_nil in Hin.
      - apply has_column_true in Hg. rewrite He in Hg. by apply elem_of_nil in Hg. }
    cbn [rows] in H.
    destruct (mapM _ _) as [scores|e] eqn:Hs; [|done].
    assert (∃ s, score_row u (dict_get ACTIVITY_RANKING (activity u) 0) r = Ok s)
      as Hrow.
    { eapply mapM_result_is_Ok; [by eexists|]. by apply list_elem_of_filter. }
    by apply (proj1 (score_row_Ok _ _ _) Hrow).
  - intros (Hg & Hc & Hall). rewrite filter_candidates_ok by done.
    cbn [mbind result_bind]. destruct (is_empty _); [by eexists|]. cbn [rows].
    destruct (proj2 (mapM_result_is_Ok
                (score_row u (dict_get ACTIVITY_RANKING (activity u) 0))
                (filter (matches (gender u) (categorize_bmi (bmi u))) (rows df))))
      as [scores Hs].
    { intros r [Hm Hr]%list_elem_of_filter. apply score_row_Ok. eauto. }
    rewrite Hs. cbn [mbind result_bind].
    apply mapM_result_Ok, Forall2_length in Hs.
    destruct (select_best_Ok
                {| columns := columns df;
                   rows := filter (matches (gender u) (categorize_bmi (bmi u)))
                             (rows df) |} scores)
      as [[_ Hsel]|(i & r' & Hr' & Hsel)]; [done|by eexists..].
Qed.

(** ** More on the score *)

Lemma Qcabs_0 x : Qcabs x = 0 ↔ x = 0.
Proof.
  unfold Qcabs. case_decide as Hx; [done|]. split.
  - intros H. rewrite <-(Qcopp_involutive x), H. by apply Qc_is_canon.
  - intros ->. by apply Qc_is_canon.
Qed.

Lemma Qcminus_0 (a b : Qc) : a - b = 0 ↔ a = b.
Proof.
  split.
  - intros H. replace a with ((a - b) + b) by ring. rewrite H. ring.
  - intros ->. ring.
Qed.

Lemma Qcplus_nonneg_0 (x y : Qc) : 0 ≤ x → 0 ≤ y → x + y = 0 ↔ x = 0 ∧ y = 0.
Proof.
  intros Hx Hy. split.
  - intros H.
    assert (x = 0) as ->.
    { apply Qcle_antisym; [|done]. rewrite <-H.
      rewrite <-(Qcplus_0_r x) at 1. by apply Qcplus_le_mono_l. }
    split; [done|]. by rewrite Qcplus_0_l in H.
  - intros [-> ->]. ring.
Qed.

Lemma Qcplus7_nonneg_0 (t1 t2 t3 t4 t5 t6 t7 : Qc) :
  0 ≤ t1 → 0 ≤ t2 → 0 ≤ t3 → 0 ≤ t4 → 0 ≤ t5 → 0 ≤ t6 → 0 ≤ t7 →
  t1 + t2 + t3 + t4 + t5 + t6 + t7 = 0 ↔
  t1 = 0 ∧ t2 = 0 ∧ t3 = 0 ∧ t4 = 0 ∧ t5 = 0 ∧ t6 = 0 ∧ t7 = 0.
Proof.
  intros H1 H2 H3 H4 H5 H6 H7.
  pose proof (Qcplus_nonneg_nonneg _ _ H1 H2) as H12.
  pose proof (Qcplus_nonneg_nonneg _ _ H12 H3) as H13.
  pose proof (Qcplus_nonneg_nonneg _ _ H13 H4) as H14.
  pose proof (Qcplus_nonneg_nonneg _ _ H14 H5) as H15.
  pose proof (Qcplus_nonneg_nonneg _ _ H15 H6) as H16.
  rewrite (Qcplus_nonneg_0 _ t7 H16 H7), (Qcplus_nonneg_0 _ t6 H15 H6),
    (Qcplus_nonneg_0 _ t5 H14 H5), (Qcplus_nonneg_0 _ t4 H13 H4),
    (Qcplus_nonneg_0 _ t3 H12 H3), (Qcplus_nonneg_0 _ t2 H1 H2).
  tauto.
Qed.

Lemma weighted_term_0 (w a b : Qc) : w ≠ 0 → w * Qcabs (a - b) = 0 ↔ a = b.
Proof.
  intros Hw. split.
  - intros [H|H]%Qcmult_integral; [done|]. by apply Qcminus_0, Qcabs_0.
  - intros ->. rewrite (proj2 (Qcabs_0 (b - b))); [ring|]. by apply Qcminus_0.
Qed.

Lemma weighted_term_nonneg (w x : Qc) : 0 ≤ w → 0 ≤ w * Qcabs x.
Proof. intros. apply Qcmult_nonneg_nonneg; [done|apply Qcabs_nonneg]. Qed.

Lemma weights_positive : 0 < qc 2.0 ∧ 0 < qc 1.0 ∧ 0 < qc 1.5.
Proof. split_and!; by vm_compute. Qed.

Lemma Qclt_0_ne (w : Qc) : 0 < w → w ≠ 0.
Proof. intros Hw ->. by apply (Qclt_not_eq 0 0). Qed.

Lemma weighted_distance_0 c u : weighted_distance c u = 0 ↔ c = u.
Proof.
  destruct weights_positive as (W2 & W1 & W15).
  destruct c as [a1 a2 a3 a4 a5 a6 a7], u as [b1 b2 b3 b4 b5 b6 b7].
  unfold weighted_distance;
    cbn [ActivityRank RiceRank BeansRank SoftDrinksRank SnacksRank FruitsRank VegRank].
  rewrite Qcplus7_nonneg_0;
    [|apply weighted_term_nonneg; by apply Qclt_le_weak..].
  rewrite (weighted_term_0 (qc 2.0)) by by apply Qclt_0_ne.
  rewrite !(weighted_term_0 (qc 1.0)) by by apply Qclt_0_ne.
  rewrite !(weighted_term_0 (qc 1.5)) by by apply Qclt_0_ne.
  split; [intros (-> & -> & -> & -> & -> & -> & ->); done|].
  intros [= -> -> -> -> -> -> ->]. done.
Qed.

(** X5. The score of a candidate is 0 exactly when each of its seven ranks
    is the rank of the answer of the user. *)
Theorem score_zero_iff_same_ranks (row : Row) (u : UserInputs) (c : Ranks) :
  row_ranks row = Some c →
  score_row u (dict_get ACTIVITY_RANKING (activity u) 0) row = Ok (fnum 0)
  ↔ c = user_ranks u.
Proof.
  intros Hc. rewrite (score_row_ranks row u c Hc), <-weighted_distance_0.
  generalize (weighted_distance c (user_ranks u)). intros s.
  generalize (Q2Qc 0). intros z. split; congruence.
Qed.

Lemma score_zero_iff_same_ranks_witness :
  row_ranks exact_row_example = Some (user_ranks user_example) ∧
  score_row user_example (dict_get ACTIVITY_RANKING (activity user_example) 0)
    exact_row_example = Ok (fnum 0).
Proof.
  assert (row_ranks exact_row_example = Some (user_ranks user_example)) as H
    by reflexivity.
  split; [exact H|].
  exact (proj2 (score_zero_iff_same_ranks exact_row_example user_example
                  (user_ranks user_example) H) eq_refl).
Defined.

(** ** The page *)

(** X6. For a match, [display_results] depends on the risk level of the
    record (the default text when the record has no such field).  A text
    gives the whole card, nine elements, ending normally, the second one an
    error for HIGH RISK, a warning for MEDIUM RISK and a success otherwise,
    with the level in title case.  A level that is missing or a number stops
    the page at [risk.title()]: [AttributeError] after the subheader alone. *)
Theorem display_results_risk (row : Row) :
  match row_get row "Malnutrition Risk Level" (Str "Not determined.") with
  | Str s =>
      outcome (display_results (Some row)) = Ok () ∧
      length (trace (display_results (Some row))) = 9%nat ∧
      trace (display_results (Some row)) !! 1%nat
      = Some ((if bool_decide (s = "HIGH RISK") then st_error
               else if bool_decide (s = "MEDIUM RISK") then st_warning
               else st_success)
                [Text "**Malnutrition Risk:** "; Text (Str.title s)])
  | _ =>
      display_results (Some row)
      = mkUI [st_subheader "Here is Your Personalized Advice"]
             (Raise AttributeError)
  end.
Proof.
  unfold display_results.
  destruct (row_get row "Malnutrition Risk Level" (Str "Not determined."))
    as [| |s]; [reflexivity..|].
  split_and!; [reflexivity..|].
  cbn. repeat case_bool_decide; simplify_eq; reflexivity.
Qed.

Lemma display_results_no_query best_match :
  List.filter is_query (trace (display_results best_match)) = [].
Proof.
  destruct best_match as [row|]; [|reflexivity].
  unfold display_results.
  destruct (row_get row "Malnutrition Risk Level" (Str "Not determined."))
    as [| |s]; [reflexivity..|].
  cbn. by repeat case_bool_decide.
Qed.


(** ** What the Normalizer leaves as it is *)

Lemma columns_add_rank ranking src dst df :
  columns (add_rank ranking src dst df)
  = (columns df ++ if has_column df dst then [] else [dst])%list.
Proof.
  unfold add_rank. rewrite columns_setitem.
  destruct (has_column df dst); [by rewrite app_nil_r|done].
Qed.

Lemma columns_foldl_add_consumption_rank l : ∀ df,
  ∃ added,
    columns (foldl add_consumption_rank df l) = (columns df ++ added)%list ∧
    (∀ x, x ∈ added → ∃ c, c ∈ l ∧ x = c ++ "_Rank") ∧
    (NoDup (columns df) → NoDup (columns df ++ added)%list).
Proof.
  induction l as [|c l IH]; intros df; simpl.
  - exists []. rewrite app_nil_r. split_and!; [done| |done].
    intros x Hx. by apply elem_of_nil in Hx.
  - destruct (IH (add_consumption_rank df c)) as (added & Heq & Hform & Hnd).
    unfold add_consumption_rank in *. rewrite columns_add_rank in *.
    destruct (has_column df (c ++ "_Rank")) eqn:Hc.
    + rewrite app_nil_r in *. exists added. split_and!; [done| |done].
      intros x Hx. destruct (Hform x Hx) as (c' & Hc' & ->).
      exists c'. split; [by right|done].
    + exists ((c ++ "_Rank") :: added). rewrite <-app_assoc in *.
      split_and!; [done| |].
      * intros x [->|Hx]%elem_of_cons.
        -- exists c. split; [by left|done].
        -- destruct (Hform x Hx) as (c' & Hc' & ->).
           exists c'. split; [by right|done].
      * intros Hdf. apply Hnd.
        apply NoDup_app. split_and!; [done| |apply NoDup_singleton].
        intros x Hx ->%list_elem_of_singleton.
        apply bool_decide_eq_false in Hc. done.
Qed.

(** X8. The Normalizer removes and reorders no column: the labels after it
    are the labels of the raw data followed by added ones, each the rank
    label of a consumption rate column of the raw data or [Activity_Rank];
    labels without repetition stay so. *)
Theorem preprocess_columns (df : DataFrame) :
  ∃ added,
    columns (preprocess df) = (columns df ++ added)%list ∧
    (∀ x, x ∈ added →
          x = "Activity_Rank" ∨
          ∃ c, c ∈ columns df ∧ Str.contains "Consumption Rate" c = true ∧
               x = c ++ "_Rank") ∧
    (NoDup (columns df) → NoDup (columns (preprocess df))).
Proof.
  pose proof (columns_preprocess_steps df) as Hcols. unfold preprocess.
  set (df2 := foldl canonicalize _ _) in *.
  destruct (columns_foldl_add_consumption_rank
              (List.filter (Str.contains "Consumption Rate") (columns df2)) df2)
    as (added & Heq & Hform & Hnd).
  set (df3 := foldl add_consumption_rank _ _) in *.
  rewrite Hcols in Heq, Hnd.
  assert (∀ x, x ∈ added →
            ∃ c, c ∈ columns df ∧ Str.contains "Consumption Rate" c = true ∧
                 x = c ++ "_Rank") as Hform'.
  { intros x Hx. destruct (Hform x Hx) as (c & Hc & ->). exists c.
    rewrite Hcols in Hc. apply list_elem_of_In, filter_In in Hc as [Hc ?].
    by apply list_elem_of_In in Hc. }
  destruct (has_column df3 "Physical Activity level").
  - rewrite columns_add_rank, Heq.
    destruct (has_column df3 "Activity_Rank") eqn:Ha.
    + rewrite app_nil_r. exists added. split_and!; [done|by right; apply Hform'|done].
    + exists (added ++ ["Activity_Rank"])%list. rewrite <-app_assoc.
      split_and!; [done| |].
      * intros x [Hx|Hx%list_elem_of_singleton]%elem_of_app;
          [by right; apply Hform'|by left].
      * intros Hdf. rewrite (assoc_L (++)).
        apply NoDup_app. split_and!; [by apply Hnd| |apply NoDup_singleton].
        intros x Hx ->%list_elem_of_singleton.
        apply bool_decide_eq_false in Ha. by rewrite Heq in Ha.
  - rewrite Heq. exists added. split_and!; [done|by right; apply Hform'|done].
Qed.

Lemma column_foldl_add_consumption_rank_other l x : ∀ df,
  (∀ c', x ≠ c' ++ "_Rank") →
  column (foldl add_consumption_rank df l) x = column df x.
Proof.
  induction l as [|c l IH]; intros df Hx; simpl; [done|].
  rewrite IH by done. apply column_add_rank. intros Heq. by apply (Hx c).
Qed.

Lemma column_preprocess_tail df x :
  (∀ c', x ≠ c' ++ "_Rank") →
  column (preprocess df) x
  = column (foldl canonicalize (foldl impute_median df NUMERIC_COLUMNS)
              (columns (foldl impute_median df NUMERIC_COLUMNS))) x.
Proof.
  intros Hx. unfold preprocess. case_match.
  - rewrite column_add_rank; [by apply column_foldl_add_consumption_rank_other|].
    intros Heq. by apply (Hx "Activity").
  - by apply column_foldl_add_consumption_rank_other.
Qed.

(** X9. A numeric column that is not one of the five measures, and whose
    label is not a rank label, comes out of the Normalizer as it went in,
    missing values included. *)
Theorem preprocess_keeps_other_numbers (df : DataFrame) (x : string) :
  (∀ c', x ≠ c' ++ "_Rank") →
  x ∉ NUMERIC_COLUMNS →
  is_numeric_dtype (column df x) = true →
  column (preprocess df) x = column df x.
Proof.
  intros Hx Hnum Hn. rewrite column_preprocess_tail by done.
  rewrite column_foldl_canonicalize;
    rewrite column_foldl_impute_median_notin; done.
Qed.

Lemma preprocess_keeps_other_numbers_witness :
  ("Household size" ∉ NUMERIC_COLUMNS) ∧
  is_numeric_dtype (column household_example "Household size") = true ∧
  column household_example "Household size" = [Num (qc 4); NaN; Num (qc 6)] ∧
  column (preprocess household_example) "Household size"
    = column household_example "Household size".
Proof.
  assert ("Household size" ∉ NUMERIC_COLUMNS) as Hn
    by (by apply (bool_decide_unpack _)).
  split; [exact Hn|]. split; [reflexivity|]. split; [reflexivity|].
  apply (preprocess_keeps_other_numbers household_example "Household size");
    [|exact Hn|reflexivity].
  intros c'. by apply not_eq_sym, Rank_label_ne.
Defined.

(** A column of dtype object is not imputed. *)
Lemma column_impute_median_text df c x :
  is_numeric_dtype (column df x) = false →
  column (impute_median df c) x = column df x.
Proof.
  intros Hx. destruct (decide (c = x)) as [->|Hne].
  - unfold impute_median. rewrite Hx. by rewrite andb_false_r.
  - by apply column_impute_median_ne.
Qed.

Lemma column_foldl_impute_median_text l x : ∀ df,
  is_numeric_dtype (column df x) = false →
  column (foldl impute_median df l) x = column df x.
Proof.
  induction l as [|c l IH]; intros df Hx; simpl; [done|].
  rewrite IH; rewrite column_impute_median_text; done.
Qed.

Lemma column_canonicalize_ne df c x :
  c ≠ x → column (canonicalize df c) x = column df x.
Proof.
  intros Hne. unfold canonicalize. case_match; [|done].
  rewrite canonical_column. by apply column_setitem_ne.
Qed.

Lemma column_canonicalize_eq df x :
  is_string_dtype (column df x) = true →
  column (canonicalize df x) x = str_upper (str_strip (column df x)).
Proof.
  intros Hs. unfold canonicalize. rewrite Hs.
  rewrite canonical_column. apply column_setitem_eq.
Qed.

Lemma column_foldl_canonicalize_notin l x : ∀ df,
  x ∉ l → column (foldl canonicalize df l) x = column df x.
Proof.
  induction l as [|c l IH]; intros df Hx; simpl; [done|].
  apply not_elem_of_cons in Hx as [Hne Hx].
  rewrite IH by done. by apply column_canonicalize_ne.
Qed.

Lemma column_foldl_canonicalize_in l x : ∀ df,
  NoDup l → x ∈ l → is_string_dtype (column df x) = true →
  column (foldl canonicalize df l) x = str_upper (str_strip (column df x)).
Proof.
  induction l as [|c l IH]; intros df Hnd Hx Hs; simpl.
  { by apply elem_of_nil in Hx. }
  apply NoDup_cons in Hnd as [Hcl Hnd].
  destruct (decide (c = x)) as [->|Hne].
  - rewrite column_foldl_canonicalize_notin by done.
    by apply column_canonicalize_eq.
  - apply elem_of_cons in Hx as [->|Hx]; [done|].
    rewrite IH; rewrite ?column_canonicalize_ne; done.
Qed.

(** A column whose fields are all texts has dtype object. *)
Lemma all_text_string_dtype (s : Series) :
  s ≠ [] → Forall (λ c, is_Str c = true) s → is_string_dtype s = true.
Proof.
  unfold is_string_dtype, is_numeric_dtype.
  destruct s as [|c s]; [done|]. intros _ [Hc _]%Forall_cons.
  simpl. by rewrite Hc.
Qed.

(** X10. A column of texts only (in data with rows and labels without
    repetition, its label not a rank label) comes out of the Normalizer as
    its [str.strip()] then [str.upper()], field by field. *)
Theorem preprocess_canonicalizes_text (df : DataFrame) (x : string) :
  (∀ c', x ≠ c' ++ "_Rank") →
  NoDup (columns df) →
  x ∈ columns df →
  rows df ≠ [] →
  Forall (λ c, is_Str c = true) (column df x) →
  column (preprocess df) x = str_upper (str_strip (column df x)).
Proof.
  intros Hx Hnd Hin Hrows Hall.
  assert (is_string_dtype (column df x) = true) as Hs.
  { apply all_text_string_dtype; [|done]. unfold column. by destruct (rows df). }
  assert (is_numeric_dtype (column df x) = false) as Hn.
  { unfold is_string_dtype in Hs. by destruct (is_numeric_dtype (column df x)). }
  rewrite column_preprocess_tail by done.
  rewrite column_foldl_canonicalize_in.
  - by rewrite column_foldl_impute_median_text.
  - by rewrite columns_foldl_impute_median.
  - by rewrite columns_foldl_impute_median.
  - by rewrite column_foldl_impute_median_text.
Qed.

Lemma preprocess_canonicalizes_text_witness :
  NoDup (columns household_example) ∧
  "Gender" ∈ columns household_example ∧
  Forall (λ c, is_Str c = true) (column household_example "Gender") ∧
  str_upper (str_strip (column household_example "Gender"))
    = [Str "FEMALE"; Str "MALE"; Str "MALE"] ∧
  column (preprocess household_example) "Gender"
    = str_upper (str_strip (column household_example "Gender")).
Proof.
  assert (NoDup (columns household_example)) as Hnd
    by (by apply (bool_decide_unpack _)).
  assert ("Gender" ∈ columns household_example) as Hin
    by (by apply (bool_decide_unpack _)).
  assert (Forall (λ c, is_Str c = true) (column household_example "Gender"))
    as Hall.
  { repeat constructor. }
  split; [exact Hnd|]. split; [exact Hin|]. split; [exact Hall|].
  split; [reflexivity|].
  apply (preprocess_canonicalizes_text household_example "Gender");
    [|exact Hnd|exact Hin|done|exact Hall].
  intros c'. by apply not_eq_sym, Rank_label_ne.
Defined.
